(** * Generic CRUD layer: BaseRepository and BaseService over an entity manager

    A shallow embedding of [base.repository.ts] and [base.service.ts].  Every
    asynchronous method becomes a computation in a state-and-exception monad
    over the storage state; [await] is monadic bind, [throw] is [throw].  The
    ORM's entity manager is the one collaborator the two classes talk to: it is
    a record of operations ([EntityManager]), so the repository and the
    service are written once, against any manager.  [Memory] gives the
    row-level semantics of those operations on a table with soft deletion; the
    properties that speak about stored records are stated against it. *)

From Stdlib Require Import ZArith List Ascii String Bool Lia.
Import ListNotations.
Local Open Scope Z_scope.

Set Implicit Arguments.

(** ** Entities *)

(** A [Date] is a point in time (milliseconds since the epoch). *)
Definition Date := Z.

(** [BaseEntity]: the four optional base properties ([id?], [createdAt?],
    [updatedAt?], [deletedAt?]); [columns] holds the columns a concrete
    entity adds.  [None] is an absent or null property. *)
Record BaseEntity (Columns : Type) : Type := mkEntity {
  id : option Z;
  createdAt : option Date;
  updatedAt : option Date;
  deletedAt : option Date;
  columns : Columns
}.

(** The [User] entity: three string columns. *)
Record UserColumns : Type := mkUser {
  email : string;
  password : string;
  name : string
}.

Definition User := BaseEntity UserColumns.

(** ** Run-time values tested by the layer *)

(** The values on which the layer tests truthiness or strict equality: an
    affected-row count, null, an entity object, or a promise that has not
    been awaited. *)
Inductive JsValue (Columns : Type) : Type :=
| JsUndefined
| JsNull
| JsNumber (n : Z)
| JsObject (e : BaseEntity Columns)
| JsPromise.

Arguments JsUndefined {Columns}.
Arguments JsNull {Columns}.
Arguments JsNumber {Columns} n.
Arguments JsPromise {Columns}.

(** [if (v)]: undefined, null and 0 are falsy; objects, promises among them,
    are truthy. *)
Definition truthy {Columns} (v : JsValue Columns) : bool :=
  match v with
  | JsUndefined | JsNull => false
  | JsNumber n => negb (n =? 0)
  | JsObject _ | JsPromise => true
  end.

(** [v === 0] and [v === null]. *)
Definition isZero {Columns} (v : JsValue Columns) : bool :=
  match v with JsNumber n => n =? 0 | _ => false end.

Definition isNull {Columns} (v : JsValue Columns) : bool :=
  match v with JsNull => true | _ => false end.

(** An [Entity | null] value. *)
Definition ofEntity {Columns} (o : option (BaseEntity Columns)) : JsValue Columns :=
  match o with Some e => JsObject e | None => JsNull end.

(** ** Query options *)

(** [FindOptionsWhere]: a criteria object, read as the condition it puts on
    a row. *)
Definition FindOptionsWhere (Columns : Type) := BaseEntity Columns -> bool.

(** The criteria [{ id }].  A property whose value is undefined puts no
    condition on the row. *)
Definition whereId {Columns} (i : option Z) : FindOptionsWhere Columns :=
  fun r =>
    match i with
    | Some n => match id r with Some m => m =? n | None => false end
    | None => true
    end.

Definition FindOptionsRelations := list string.

(** [FindOneOptions] / [FindManyOptions]: the properties the layer sets or
    the soft-deletion rule reads. *)
Record FindOneOptions (Columns : Type) : Type := mkOptions {
  where_ : option (FindOptionsWhere Columns);
  relations : option FindOptionsRelations;
  withDeleted : bool
}.

Definition FindManyOptions := FindOneOptions.

(** [{ where }] and [{ where, relations }]. *)
Definition optWhere {Columns} (w : FindOptionsWhere Columns) : FindOneOptions Columns :=
  {| where_ := Some w; relations := None; withDeleted := false |}.

Definition optWhereRelations {Columns} (w : FindOptionsWhere Columns)
    (rel : option FindOptionsRelations) : FindOneOptions Columns :=
  {| where_ := Some w; relations := rel; withDeleted := false |}.

(** [QueryDeepPartialEntity]: the properties an update assigns, the key
    among them; an absent property is left as it is. *)
Record QueryDeepPartialEntity (Columns : Type) : Type := mkPatch {
  setId : option Z;
  setCreatedAt : option Date;
  setUpdatedAt : option Date;
  setDeletedAt : option (option Date);
  setColumns : Columns -> Columns
}.

(** [UpdateResult]: only [affected] is read. *)
Record UpdateResult (Columns : Type) : Type := mkUpdateResult {
  affected : JsValue Columns
}.

(** ** Promises: state and exceptions *)

(** [EntityNotFound] carries the entity's name; every other failure comes
    from the storage layer. *)
Inductive Exception : Type :=
| EntityNotFound (entity : string)
| StorageError (message : string).

Inductive Result (A : Type) : Type :=
| Ok (a : A)
| Throw (e : Exception).

Arguments Throw {A} e.

(** An asynchronous computation over storage state [Store]: it ends with a
    value or a raised exception, and with the storage as it left it. *)
Definition M (Store A : Type) : Type := Store -> Result A * Store.

Definition ret {Store A} (a : A) : M Store A := fun s => (Ok a, s).

Definition throw {Store A} (e : Exception) : M Store A := fun s => (Throw e, s).

Definition bind {Store A B} (m : M Store A) (f : A -> M Store B) : M Store B :=
  fun s =>
    match m s with
    | (Ok a, s') => f a s'
    | (Throw e, s') => (Throw e, s')
    end.

(** The value a computation that was started but not awaited has: a promise
    object, whatever its outcome will be. *)
Definition promiseOf {Columns Store A} (pending : M Store A) : JsValue Columns :=
  JsPromise.

Declare Scope async_scope.
Delimit Scope async_scope with async.
Notation "x <- m ;; k" := (bind m (fun x => k))
  (at level 61, m at next level, right associativity) : async_scope.
Notation "m ;;; k" := (bind m (fun _ => k))
  (at level 61, right associativity) : async_scope.
Local Open Scope async_scope.

(** ** The entity manager *)

(** The operations of the ORM's [EntityManager] the repository calls, for
    one entity class; [metadataName] is
    [getRepository(entityClass).metadata.name]. *)
Module EntityManager.
Record t (Columns Store : Type) : Type := mk {
  metadataName : string;
  save : BaseEntity Columns -> M Store (BaseEntity Columns);
  find : option (FindManyOptions Columns) -> M Store (list (BaseEntity Columns));
  findOne : FindOneOptions Columns -> M Store (option (BaseEntity Columns));
  update : FindOptionsWhere Columns -> QueryDeepPartialEntity Columns ->
           M Store (UpdateResult Columns);
  softDelete : FindOptionsWhere Columns -> M Store (UpdateResult Columns);
  restore : FindOptionsWhere Columns -> M Store (UpdateResult Columns)
}.
End EntityManager.

(** ** BaseRepository *)

Module BaseRepository.
Section Methods.
Variables Columns Store : Type.

Local Abbreviation Entity := (BaseEntity Columns).

Record t : Type := mk {
  manager : EntityManager.t Columns Store;
  entity : string
}.

(** The constructor reads the entity's name off the manager's metadata. *)
Definition new (manager : EntityManager.t Columns Store) : t :=
  {| manager := manager; entity := EntityManager.metadataName manager |}.

Definition entityName (this : t) : string := entity this.

(** [if (data === 0 || data === null) throw new EntityNotFound(...)]. *)
Definition checkEntityExist (this : t) (data : JsValue Columns) : M Store unit :=
  if isZero data || isNull data
  then throw (EntityNotFound (entityName this))
  else ret tt.

Definition create (this : t) (data : Entity) : M Store Entity :=
  EntityManager.save (manager this) data.

Definition find (this : t) (options : option (FindManyOptions Columns))
    : M Store (list Entity) :=
  EntityManager.find (manager this) options.

Definition findOne (this : t) (filter : FindOneOptions Columns)
    : M Store (option Entity) :=
  EntityManager.findOne (manager this) filter.

(** [const entity = this.findOne(where)] is not awaited: [entity] is the
    promise itself, and it is the promise that the two [if]s test.
    Returning it from the async method settles the method with the
    promise's outcome. *)
Definition findOrCreate (this : t) (where_ : FindOneOptions Columns)
    (data : Entity) : M Store (option Entity) :=
  let entity : M Store (option Entity) := findOne this where_ in
  if truthy (promiseOf entity : JsValue Columns) then entity
  else if negb (truthy (promiseOf entity : JsValue Columns))
       then (e <- create this data ;; ret (Some e))
       else ret None.

Definition findOneOrFail (this : t) (filter : FindOneOptions Columns)
    : M Store (option Entity) :=
  entity <- findOne this filter ;;
  checkEntityExist this (ofEntity entity) ;;;
  ret entity.

Definition update (this : t) (where_ : FindOptionsWhere Columns)
    (data : QueryDeepPartialEntity Columns)
    (relations : option FindOptionsRelations) : M Store (option Entity) :=
  EntityManager.update (manager this) where_ data ;;;
  EntityManager.findOne (manager this) (optWhereRelations where_ relations).

Definition updateOrFail (this : t) (where_ : FindOptionsWhere Columns)
    (data : QueryDeepPartialEntity Columns)
    (relations : option FindOptionsRelations) : M Store (option Entity) :=
  updated <- update this where_ data relations ;;
  checkEntityExist this (ofEntity updated) ;;;
  ret updated.

Definition softDelete (this : t) (where_ : FindOptionsWhere Columns)
    : M Store (UpdateResult Columns) :=
  EntityManager.softDelete (manager this) where_.

Definition deleteOrFail (this : t) (where_ : FindOptionsWhere Columns)
    : M Store bool :=
  r <- softDelete this where_ ;;
  checkEntityExist this (affected r) ;;;
  ret true.

Definition restore (this : t) (where_ : FindOptionsWhere Columns)
    : M Store (UpdateResult Columns) :=
  EntityManager.restore (manager this) where_.

Definition restoreOrFail (this : t) (where_ : FindOptionsWhere Columns)
    : M Store bool :=
  r <- restore this where_ ;;
  checkEntityExist this (affected r) ;;;
  ret true.
End Methods.
End BaseRepository.

(** ** BaseService *)

Module BaseService.
Section Methods.
Variables Columns Store : Type.

Local Abbreviation Entity := (BaseEntity Columns).

Record t : Type := mk {
  repository : BaseRepository.t Columns Store
}.

Definition new (repository : BaseRepository.t Columns Store) : t :=
  {| repository := repository |}.

Definition find (this : t) (query : option (FindManyOptions Columns))
    : M Store (list Entity) :=
  BaseRepository.find (repository this) query.

Definition findOneOrFail (this : t) (query : FindOneOptions Columns)
    : M Store (option Entity) :=
  BaseRepository.findOneOrFail (repository this) query.

Definition findOneByIdOrFail (this : t) (id : Z) : M Store (option Entity) :=
  findOneOrFail this (optWhere (whereId (Some id))).

Definition findOne (this : t) (query : FindOneOptions Columns)
    : M Store (option Entity) :=
  BaseRepository.findOne (repository this) query.

(** [const { id } = await this.repository.create(data)], then the plain
    [findOne] on [{ where: { id } }]. *)
Definition create (this : t) (data : Entity) : M Store (option Entity) :=
  saved <- BaseRepository.create (repository this) data ;;
  findOne this (optWhere (whereId (id saved))).

Definition update (this : t) (where_ : FindOptionsWhere Columns)
    (data : QueryDeepPartialEntity Columns)
    (relations : option FindOptionsRelations) : M Store (option Entity) :=
  BaseRepository.updateOrFail (repository this) where_ data relations.

Definition updateById (this : t) (id : Z)
    (data : QueryDeepPartialEntity Columns)
    (relations : option FindOptionsRelations) : M Store (option Entity) :=
  update this (whereId (Some id)) data relations.

Definition deleteById (this : t) (id : Z) : M Store bool :=
  BaseRepository.deleteOrFail (repository this) (whereId (Some id)).

Definition restoreById (this : t) (id : Z) : M Store bool :=
  BaseRepository.restoreOrFail (repository this) (whereId (Some id)).

(** [(await this.repository.find({ where: filter })).length]. *)
Definition count (this : t) (filter : FindOptionsWhere Columns) : M Store Z :=
  total <- BaseRepository.find (repository this) (Some (optWhere filter)) ;;
  ret (Z.of_nat (List.length total)).
End Methods.
End BaseService.

(** ** Row-level semantics of the entity manager *)

(** The manager's operations on one table.  Select queries ([find],
    [findOne]) add the condition that [deletedAt] is null unless
    [withDeleted] is set, and [findOne] refuses options without [where];
    the write queries ([update], [softDelete],
    [restore]) are [UPDATE ... WHERE criteria], on every row the criteria
    select, and report how many rows that was.  [save] inserts, or rewrites
    the row that has the given key. *)
Module Memory.
Section Table.
Variable Columns : Type.

Local Abbreviation Entity := (BaseEntity Columns).

(** The table in key order, the next generated key and the storage clock. *)
Record Table : Type := mkTable {
  rows : list Entity;
  nextId : Z;
  clock : Date
}.

Definition notDeleted (r : Entity) : bool :=
  match deletedAt r with None => true | Some _ => false end.

(** The rows a select query with options [o] returns. *)
Definition selected (o : FindOneOptions Columns) (r : Entity) : bool :=
  match where_ o with Some w => w r | None => true end
  && (withDeleted o || notDeleted r).

Definition noOptions : FindOneOptions Columns :=
  {| where_ := None; relations := None; withDeleted := false |}.

Definition find (options : option (FindManyOptions Columns))
    : M Table (list Entity) :=
  fun t =>
    let o := match options with Some o => o | None => noOptions end in
    (Ok (filter (selected o) (rows t)), t).

(** [findOne] reads the first row the options select; on options without
    [where] it fails before any read. *)
Definition noSelectionConditions : Exception :=
  StorageError
    "You must provide selection conditions in order to find a single row.".

Definition findOne (filter : FindOneOptions Columns) : M Table (option Entity) :=
  fun t =>
    match where_ filter with
    | None => (Throw noSelectionConditions, t)
    | Some _ => (Ok (List.find (selected filter) (rows t)), t)
    end.

Definition orElse {A} (o : option A) (d : A) : A :=
  match o with Some a => a | None => d end.

(** A write statement changes every row the criteria select, and the clock
    moves on; it reports the count of those rows as [affected]. *)
Definition matching (criteria : FindOptionsWhere Columns) (t : Table) : Z :=
  Z.of_nat (List.length (filter criteria (rows t))).

Definition rewritten (criteria : FindOptionsWhere Columns)
    (change : Date -> Entity -> Entity) (t : Table) : Table :=
  {| rows := map (fun r => if criteria r then change (clock t) r else r) (rows t);
     nextId := nextId t;
     clock := clock t + 1 |}.

Definition writeWhere (criteria : FindOptionsWhere Columns)
    (change : Date -> Entity -> Entity) : M Table (UpdateResult Columns) :=
  fun t =>
    (Ok {| affected := JsNumber (matching criteria t) |},
     rewritten criteria change t).

Definition patched (data : QueryDeepPartialEntity Columns) (now : Date)
    (r : Entity) : Entity :=
  {| id := match setId data with Some n => Some n | None => id r end;
     createdAt := match setCreatedAt data with Some d => Some d | None => createdAt r end;
     updatedAt := Some (orElse (setUpdatedAt data) now);
     deletedAt := orElse (setDeletedAt data) (deletedAt r);
     columns := setColumns data (columns r) |}.

Definition update (criteria : FindOptionsWhere Columns)
    (data : QueryDeepPartialEntity Columns) : M Table (UpdateResult Columns) :=
  writeWhere criteria (patched data).

(** [SET deleted_at = CURRENT_TIMESTAMP, updated_at = CURRENT_TIMESTAMP]. *)
Definition softDeleted (now : Date) (r : Entity) : Entity :=
  {| id := id r; createdAt := createdAt r; updatedAt := Some now;
     deletedAt := Some now; columns := columns r |}.

Definition softDelete (criteria : FindOptionsWhere Columns)
    : M Table (UpdateResult Columns) :=
  writeWhere criteria softDeleted.

(** [SET deleted_at = NULL, updated_at = CURRENT_TIMESTAMP]. *)
Definition restored (now : Date) (r : Entity) : Entity :=
  {| id := id r; createdAt := createdAt r; updatedAt := Some now;
     deletedAt := None; columns := columns r |}.

Definition restore (criteria : FindOptionsWhere Columns)
    : M Table (UpdateResult Columns) :=
  writeWhere criteria restored.

Definition hasId (i : Z) (r : Entity) : bool := whereId (Some i) r.

(** The row an insert of [data] under key [i] stores: given dates are kept,
    missing creation and update dates default to the current time. *)
Definition inserted (i : Z) (now : Date) (data : Entity) : Entity :=
  {| id := Some i;
     createdAt := Some (orElse (createdAt data) now);
     updatedAt := Some (orElse (updatedAt data) now);
     deletedAt := deletedAt data;
     columns := columns data |}.

(** The row a save of [data] leaves in place of the stored row [r]: the
    properties [data] defines overwrite the row's. *)
Definition merged (now : Date) (data r : Entity) : Entity :=
  {| id := id r;
     createdAt := match createdAt data with Some d => Some d | None => createdAt r end;
     updatedAt := Some now;
     deletedAt := match deletedAt data with Some d => Some d | None => deletedAt r end;
     columns := columns data |}.

Definition insert (i : Z) (data : Entity) : M Table Entity :=
  fun t =>
    let row := inserted i (clock t) data in
    (Ok row,
     {| rows := rows t ++ [row];
        nextId := Z.max (nextId t) (i + 1);
        clock := clock t + 1 |}).

Definition save (data : Entity) : M Table Entity :=
  fun t =>
    match id data with
    | None => insert (nextId t) data t
    | Some i =>
        match List.find (hasId i) (rows t) with
        | None => insert i data t
        | Some r =>
            (Ok (merged (clock t) data r),
             {| rows := map (fun r => if hasId i r then merged (clock t) data r else r)
                            (rows t);
                nextId := nextId t;
                clock := clock t + 1 |})
        end
    end.

(** The manager of the entity class called [entity]. *)
Definition manager (entity : string) : EntityManager.t Columns Table :=
  {| EntityManager.metadataName := entity;
     EntityManager.save := save;
     EntityManager.find := find;
     EntityManager.findOne := findOne;
     EntityManager.update := update;
     EntityManager.softDelete := softDelete;
     EntityManager.restore := restore |}.

(** What the schema guarantees of a table: every row has its generated key,
    below the next key to be generated, and its two NOT NULL dates. *)
Definition wellFormedRow (next : Z) (r : Entity) : Prop :=
  (exists i, id r = Some i /\ i < next)
  /\ createdAt r <> None /\ updatedAt r <> None.

Definition wellFormed (t : Table) : Prop :=
  forall r, In r (rows t) -> wellFormedRow (nextId t) r.
End Table.
End Memory.

Arguments Memory.mkTable {Columns} rows nextId clock.
Arguments Memory.noOptions {Columns}.
Arguments Memory.softDeleted {Columns} now r.
Arguments Memory.restored {Columns} now r.
Arguments Memory.patched {Columns} data now r.

(** A repository, and the service over it, for the entity class called
    [entity], wired to the table's manager. *)
Definition repositoryOf (Columns : Type) (entity : string)
    : BaseRepository.t Columns (Memory.Table Columns) :=
  BaseRepository.new (Memory.manager Columns entity).

Definition serviceOf (Columns : Type) (entity : string)
    : BaseService.t Columns (Memory.Table Columns) :=
  BaseService.new (repositoryOf Columns entity).

(** ** The user module *)

(** [UserRepository]: [super(manager, User)]; [UserService]:
    [super(userRepository)]. *)
Definition UserRepository : BaseRepository.t UserColumns (Memory.Table UserColumns) :=
  repositoryOf UserColumns "User"%string.

Definition UserService : BaseService.t UserColumns (Memory.Table UserColumns) :=
  BaseService.new UserRepository.

(** Sample data: a user as a caller passes it to [create], and tables. *)
Definition userA : User :=
  {| id := None; createdAt := None; updatedAt := None; deletedAt := None;
     columns := {| email := "a@x.com"%string; password := "p"%string; name := "A"%string |} |}.

Definition emptyTable : Memory.Table UserColumns :=
  Memory.mkTable [] 1 1000.

(** One stored, never deleted user with key 1. *)
Definition storedA : User :=
  {| id := Some 1; createdAt := Some 1000; updatedAt := Some 1000;
     deletedAt := None;
     columns := {| email := "a@x.com"%string; password := "p"%string; name := "A"%string |} |}.

Definition tableA : Memory.Table UserColumns :=
  Memory.mkTable [storedA] 2 1001.

(** A user handed to [create] with its deletion date already set. *)
Definition userGone : User :=
  {| id := None; createdAt := None; updatedAt := None; deletedAt := Some 5;
     columns := {| email := "g@x.com"%string; password := "p"%string; name := "G"%string |} |}.

Definition renameB : QueryDeepPartialEntity UserColumns :=
  {| setId := None; setCreatedAt := None; setUpdatedAt := None;
     setDeletedAt := None;
     setColumns := fun c => {| email := email c; password := password c; name := "B"%string |} |}.

(** The table after user 1 has been soft-deleted at time 1001, and after
    user 1 has been restored at time 1001 without having been deleted. *)
Definition goneA : User :=
  {| id := Some 1; createdAt := Some 1000; updatedAt := Some 1001;
     deletedAt := Some 1001;
     columns := {| email := "a@x.com"%string; password := "p"%string; name := "A"%string |} |}.

Definition tableGone : Memory.Table UserColumns :=
  Memory.mkTable [goneA] 2 1002.

Definition touchedA : User :=
  {| id := Some 1; createdAt := Some 1000; updatedAt := Some 1001;
     deletedAt := None;
     columns := {| email := "a@x.com"%string; password := "p"%string; name := "A"%string |} |}.

Definition tableTouched : Memory.Table UserColumns :=
  Memory.mkTable [touchedA] 2 1002.

(** ** SnakeCaseStrategy *)

(** The naming strategy that maps class and property names to table, column
    and relation names.  Names are strings of characters; [[A-Z]] and
    [toLowerCase] on one matched letter are the ASCII ones. *)
Module SnakeCaseStrategy.

(** [[A-Z]]. *)
Definition isUpper (c : ascii) : bool :=
  (65 <=? nat_of_ascii c)%nat && (nat_of_ascii c <=? 90)%nat.

(** [x.toLowerCase()] for one character. *)
Definition toLower (c : ascii) : ascii :=
  if isUpper c then ascii_of_nat (nat_of_ascii c + 32) else c.

Definition isDot (c : ascii) : bool := Ascii.eqb c ".".

Definition isUnderscore (c : ascii) : bool := Ascii.eqb c "_".

(** [name.replace(/(?:^|\.?)([A-Z])/g, (_, x) => '_' + x.toLowerCase())]:
    scanning from the left, a capital, together with a dot right before it
    if there is one, becomes an underscore and the capital's lower case;
    every other character is kept. *)
Fixpoint replaceCapitals (name : string) : string :=
  match name with
  | EmptyString => EmptyString
  | String c rest =>
      if isUpper c
      then String "_" (String (toLower c) (replaceCapitals rest))
      else
        match rest with
        | EmptyString => String c EmptyString
        | String d rest' =>
            if isDot c && isUpper d
            then String "_" (String (toLower d) (replaceCapitals rest'))
            else String c (replaceCapitals rest)
        end
  end.

(** [.replace(/^_/, '')]. *)
Definition dropLeadingUnderscore (name : string) : string :=
  match name with
  | String c rest => if isUnderscore c then rest else name
  | EmptyString => EmptyString
  end.

Definition snakeCase (name : string) : string :=
  dropLeadingUnderscore (replaceCapitals name).

(** [customName || this.snakeCase(className)]: an absent or empty custom
    name is falsy. *)
Definition tableName (className : string) (customName : option string) : string :=
  match customName with
  | Some (String c rest) => String c rest
  | Some EmptyString | None => snakeCase className
  end.

Definition columnName (propertyName : string) (customName : option string)
    (embeddedPrefixes : list string) : string :=
  snakeCase propertyName.

Definition relationName (propertyName : string) : string :=
  snakeCase propertyName.

(** Whether a name has a capital, and whether it starts with an
    underscore. *)
Fixpoint hasUpper (name : string) : bool :=
  match name with
  | EmptyString => false
  | String c rest => isUpper c || hasUpper rest
  end.

Fixpoint hasDot (name : string) : bool :=
  match name with
  | EmptyString => false
  | String c rest => isDot c || hasDot rest
  end.

Definition startsWithUnderscore (name : string) : bool :=
  match name with
  | String c _ => isUnderscore c
  | EmptyString => false
  end.

(** The name without its separators (underscores and dots), and a name in
    lower case. *)
Fixpoint withoutSeparators (name : string) : string :=
  match name with
  | EmptyString => EmptyString
  | String c rest =>
      if isUnderscore c || isDot c then withoutSeparators rest
      else String c (withoutSeparators rest)
  end.

Fixpoint lowerCase (name : string) : string :=
  match name with
  | EmptyString => EmptyString
  | String c rest => String (toLower c) (lowerCase rest)
  end.
End SnakeCaseStrategy.

(** ** Swagger set-up *)

Module Swagger.

(** [IOperations]: the [_root.entries] of an operation, key and value
    pairs. *)
Record IOperations : Type := mkOperations {
  entries : list (string * string)
}.

(** What [httpMethodOrder[key]] evaluates to: an own property (a number),
    a property the object literal inherits from [Object.prototype] (as the
    string it converts to in a comparison), or undefined. *)
Inductive Looked : Type :=
| Own (order : Z)
| Inherited (primitive : string)
| Missing.

(** After [toLowerCase], the inherited property names a key can still hit
    are the two without a capital: [constructor] (the function [Object])
    and [__proto__] (the prototype object). *)
Definition httpMethodOrder (key : string) : Looked :=
  if (key =? "get")%string then Own 1
  else if (key =? "post")%string then Own 2
  else if (key =? "patch")%string then Own 3
  else if (key =? "put")%string then Own 4
  else if (key =? "delete")%string then Own 5
  else if (key =? "constructor")%string
       then Inherited "function Object() { [native code] }"
  else if (key =? "__proto__")%string then Inherited "[object Object]"
  else Missing.

(** [x < y]: numbers compare as numbers, two strings by code units; with
    undefined, or a number against a string that is no numeral, the
    comparison is false. *)
Definition lessThan (x y : Looked) : bool :=
  match x, y with
  | Own a, Own b => a <? b
  | Inherited s, Inherited u => String.ltb s u
  | _, _ => false
  end.

Definition greaterThan (x y : Looked) : bool := lessThan y x.

(** [toLowerCase] on a method name (ASCII; on any other character the
    look-up misses either way). *)
Definition toLowerCase (s : string) : string := SnakeCaseStrategy.lowerCase s.

(** [entries.find((entry) => entry[0] === key)]. *)
Definition findEntry (key : string) (o : IOperations) : option (string * string) :=
  List.find (fun entry => (fst entry =? key)%string) (entries o).

(** The sorter returns a number, or fails with a [TypeError] on reading
    [[1]] of an entry that [find] did not find. *)
Inductive Outcome : Type :=
| Returned (n : Z)
| TypeError.

Section Sorter.
(** [String.prototype.localeCompare], as the host provides it. *)
Variable localeCompare : string -> string -> Z.

Definition operationsSorter (a b : IOperations) : Outcome :=
  match findEntry "method" a with
  | None => TypeError
  | Some entryMethodA =>
      let methodA := toLowerCase (snd entryMethodA) in
      match findEntry "path" a with
      | None => TypeError
      | Some entryPathA =>
          let pathA := snd entryPathA in
          match findEntry "method" b with
          | None => TypeError
          | Some entryMethodB =>
              let methodB := toLowerCase (snd entryMethodB) in
              match findEntry "path" b with
              | None => TypeError
              | Some entryPathB =>
                  let pathB := snd entryPathB in
                  let orderA := httpMethodOrder methodA in
                  let orderB := httpMethodOrder methodB in
                  if lessThan orderA orderB then Returned (-1)
                  else if greaterThan orderA orderB then Returned 1
                  else Returned (localeCompare pathA pathB)
              end
          end
      end
  end.
End Sorter.

(** The rank of a method: its own number in [httpMethodOrder]. *)
Definition rank (method : string) : option Z :=
  match httpMethodOrder (toLowerCase method) with
  | Own n => Some n
  | _ => None
  end.

(** [s.split(',')]: the pieces between the commas; the empty string has
    one, empty, piece. *)
Fixpoint split (s : string) : list string :=
  match s with
  | EmptyString => [EmptyString]
  | String c rest =>
      if Ascii.eqb c ","
      then EmptyString :: split rest
      else match split rest with
           | piece :: pieces => String c piece :: pieces
           | [] => [String c EmptyString]
           end
  end.

(** [list.includes(x)], where [x] may be undefined. *)
Definition includes (l : list string) (x : option string) : bool :=
  match x with
  | Some v => existsb (String.eqb v) l
  | None => false
  end.

(** What [setupSwagger] registers on the application: basic
    authentication on the two documentation paths, when the environment is
    one of [swaggerEnvs], and then the documentation under [docs]. *)
Inductive Registration : Type :=
| BasicAuth (paths : list string) (user password : option string)
| Docs (path title description version : string).

Record Environment : Type := mkEnvironment {
  SWAGGER_ENVS : string;
  NODE_ENV : option string;
  SWAGGER_USER : option string;
  SWAGGER_PASSWORD : option string
}.

Definition swaggerEnvs (env : Environment) : list string :=
  split (SWAGGER_ENVS env).

Definition setupSwagger (env : Environment) (app : list Registration)
    : list Registration :=
  let app :=
    if includes (swaggerEnvs env) (NODE_ENV env)
    then app ++ [BasicAuth ["/docs"%string; "/docs-json"%string]
                           (SWAGGER_USER env) (SWAGGER_PASSWORD env)]
    else app in
  app ++ [Docs "docs" "Utils API" "Api created by Ignacio Gonzalez" "1.0"].

(** Whether a string has a comma. *)
Fixpoint hasComma (s : string) : bool :=
  match s with
  | EmptyString => false
  | String c rest => Ascii.eqb c "," || hasComma rest
  end.
End Swagger.

(** Sample operations, and a comparison of paths by code units to stand for
    the host's [localeCompare]. *)
Definition operation (method path : string) : Swagger.IOperations :=
  Swagger.mkOperations [("path"%string, path); ("method"%string, method)].

Definition byCodeUnits (x y : string) : Z :=
  match String.compare x y with
  | Lt => -1
  | Eq => 0
  | Gt => 1
  end.








(** A manager whose storage cannot be reached: every operation fails. *)
Definition offline : EntityManager.t UserColumns (Memory.Table UserColumns) :=
  {| EntityManager.metadataName := "User"%string;
     EntityManager.save := fun _ => throw (StorageError "ECONNREFUSED");
     EntityManager.find := fun _ => throw (StorageError "ECONNREFUSED");
     EntityManager.findOne := fun _ => throw (StorageError "ECONNREFUSED");
     EntityManager.update := fun _ _ => throw (StorageError "ECONNREFUSED");
     EntityManager.softDelete := fun _ => throw (StorageError "ECONNREFUSED");
     EntityManager.restore := fun _ => throw (StorageError "ECONNREFUSED") |}.

(** * Properties *)

Unset Implicit Arguments.

(** ** The layer over any manager *)

Section AnyManager.
Context {Columns Store : Type}.
Variable m : EntityManager.t Columns Store.

Local Abbreviation repo := (BaseRepository.new m).
Local Abbreviation service := (BaseService.new (BaseRepository.new m)).

(** The shared existence check raises on 0 and on null, and on nothing
    else. *)
Lemma checkEntityExist_raises (data : JsValue Columns) (s : Store) :
  data = JsNumber 0 \/ data = JsNull ->
  BaseRepository.checkEntityExist repo data s
  = (Throw (EntityNotFound (EntityManager.metadataName m)), s).
Proof.
  intros [-> | ->]; reflexivity.
Qed.

Lemma checkEntityExist_passes (data : JsValue Columns) (s : Store) :
  data <> JsNumber 0 -> data <> JsNull ->
  BaseRepository.checkEntityExist repo data s = (Ok tt, s).
Proof.
  intros H0 Hn. unfold BaseRepository.checkEntityExist.
  destruct data as [ | | n | e | ]; cbn; try reflexivity.
  - contradiction.
  - destruct (Z.eqb_spec n 0) as [-> | _]; [contradiction | reflexivity].
Qed.


Lemma findOneOrFail_present (F : FindOneOptions Columns) (s s' : Store)
    (e : BaseEntity Columns) :
  EntityManager.findOne m F s = (Ok (Some e), s') ->
  BaseRepository.findOneOrFail repo F s = (Ok (Some e), s').
Proof.
  intros H.
  unfold BaseRepository.findOneOrFail, BaseRepository.findOne, bind. cbn.
  rewrite H. reflexivity.
Qed.


(** The promise under test is truthy, so [findOrCreate] is [findOne]. *)
Lemma findOrCreate_findOne (w : FindOneOptions Columns) (data : BaseEntity Columns) :
  BaseRepository.findOrCreate repo w data = BaseRepository.findOne repo w.
Proof.
  reflexivity.
Qed.

(** [deleteOrFail] and [restoreOrFail] decide on the affected count
    alone. *)
Lemma deleteOrFail_affected (w : FindOptionsWhere Columns) (s s' : Store)
    (n : Z) :
  EntityManager.softDelete m w s = (Ok {| affected := JsNumber n |}, s') ->
  BaseRepository.deleteOrFail repo w s
  = (if n =? 0 then Throw (EntityNotFound (EntityManager.metadataName m))
     else Ok true, s').
Proof.
  intros H.
  unfold BaseRepository.deleteOrFail, BaseRepository.softDelete, bind. cbn.
  rewrite H. cbn. unfold BaseRepository.checkEntityExist. cbn.
  destruct (n =? 0); reflexivity.
Qed.

Lemma restoreOrFail_affected (w : FindOptionsWhere Columns) (s s' : Store)
    (n : Z) :
  EntityManager.restore m w s = (Ok {| affected := JsNumber n |}, s') ->
  BaseRepository.restoreOrFail repo w s
  = (if n =? 0 then Throw (EntityNotFound (EntityManager.metadataName m))
     else Ok true, s').
Proof.
  intros H.
  unfold BaseRepository.restoreOrFail, BaseRepository.restore, bind. cbn.
  rewrite H. cbn. unfold BaseRepository.checkEntityExist. cbn.
  destruct (n =? 0); reflexivity.
Qed.

(** C10.  The service's [create] re-reads the saved record with the plain
    [findOne]: when that read, by the identity the save returned, finds
    nothing, [create] resolves to null and raises no [EntityNotFound]. *)
Theorem create_resolves_to_null (data saved : BaseEntity Columns)
    (s s1 s2 : Store) :
  EntityManager.save m data s = (Ok saved, s1) ->
  EntityManager.findOne m (optWhere (whereId (id saved))) s1 = (Ok None, s2) ->
  BaseService.create service data s = (Ok None, s2).
Proof.
  intros Hsave Hread.
  unfold BaseService.create, BaseService.findOne, BaseRepository.create,
    BaseRepository.findOne, bind. cbn.
  rewrite Hsave. exact Hread.
Qed.
End AnyManager.

(** ** The layer over a table *)

Section OverTable.
Context {Columns : Type}.
Variable entity : string.

Local Abbreviation Entity := (BaseEntity Columns).
Local Abbreviation Table := (Memory.Table Columns).
Local Abbreviation repo := (repositoryOf Columns entity).
Local Abbreviation service := (serviceOf Columns entity).

Lemma find_none_all (f : Entity -> bool) (l : list Entity) :
  (forall r, In r l -> f r = false) -> List.find f l = None.
Proof.
  induction l as [| r l IH]; intros H; cbn; [reflexivity |].
  rewrite (H r (or_introl eq_refl)). apply IH.
  intros r' Hr'. apply H. right. exact Hr'.
Qed.

Lemma filter_nil_all (f : Entity -> bool) (l : list Entity) :
  (forall r, In r l -> f r = false) -> filter f l = [].
Proof.
  induction l as [| r l IH]; intros H; cbn; [reflexivity |].
  rewrite (H r (or_introl eq_refl)). apply IH.
  intros r' Hr'. apply H. right. exact Hr'.
Qed.

(** No row matches exactly when the affected count is 0. *)
Lemma matching_zero (w : FindOptionsWhere Columns) (t : Table) :
  Memory.matching w t = 0 <-> (forall r, In r (Memory.rows t) -> w r = false).
Proof.
  unfold Memory.matching. split.
  - intros H r Hr. destruct (w r) eqn:E; [| reflexivity].
    assert (Hin : In r (filter w (Memory.rows t))) by (apply filter_In; auto).
    destruct (filter w (Memory.rows t)); [destruct Hin | cbn in H; lia].
  - intros H. rewrite (filter_nil_all w _ H). reflexivity.
Qed.

Lemma matching_positive (w : FindOptionsWhere Columns) (t : Table) (r : Entity) :
  In r (Memory.rows t) -> w r = true -> (Memory.matching w t =? 0) = false.
Proof.
  intros Hr Hw. apply Z.eqb_neq. intros H0.
  rewrite (proj1 (matching_zero w t) H0 r Hr) in Hw. discriminate.
Qed.



(** C9.  [count] answers the length of what [find] returns on
    [{ where: filter }], which is the number of records that satisfy the
    filter and are not soft-deleted; the table is left as it was. *)
Theorem count_is_length_of_find (filter_ : FindOptionsWhere Columns) (t : Table) :
  exists total : list Entity,
    BaseService.find service (Some (optWhere filter_)) t = (Ok total, t) /\
    BaseService.count service filter_ t = (Ok (Z.of_nat (List.length total)), t) /\
    total = filter (fun r => filter_ r && Memory.notDeleted r) (Memory.rows t).
Proof.
  exists (filter (fun r => filter_ r && Memory.notDeleted r) (Memory.rows t)).
  repeat split; reflexivity.
Qed.

Lemma whereId_true (i : Z) (r : Entity) :
  whereId (Some i) r = true <-> id r = Some i.
Proof.
  unfold whereId. destruct (id r) as [j |].
  - rewrite Z.eqb_eq. split; [intros -> | intros [= ->]]; reflexivity.
  - split; discriminate.
Qed.

Lemma whereId_false (i : Z) (r : Entity) :
  id r <> Some i -> whereId (Some i) r = false.
Proof.
  intros H. destruct (whereId (Some i) r) eqn:E; [| reflexivity].
  apply whereId_true in E. contradiction.
Qed.


(** A row the criteria select is in the written table in its changed
    form. *)
Lemma rewritten_In (w : FindOptionsWhere Columns)
    (change : Date -> Entity -> Entity) (t : Table) (r : Entity) :
  In r (Memory.rows t) -> w r = true ->
  In (change (Memory.clock t) r) (Memory.rows (Memory.rewritten w change t)).
Proof.
  intros Hr Hw. cbn. apply in_map_iff. exists r. rewrite Hw. auto.
Qed.

(** Every row of the written table is a row of the old one, changed when
    the criteria select it. *)
Lemma rewritten_inv (w : FindOptionsWhere Columns)
    (change : Date -> Entity -> Entity) (t : Table) (r' : Entity) :
  In r' (Memory.rows (Memory.rewritten w change t)) ->
  exists r, In r (Memory.rows t) /\
            ((w r = true /\ r' = change (Memory.clock t) r)
             \/ (w r = false /\ r' = r)).
Proof.
  cbn. intros H. apply in_map_iff in H. destruct H as [r [E Hr]].
  exists r. split; [exact Hr |]. destruct (w r); [left | right]; auto.
Qed.



(** Over a table, [deleteOrFail] and [restoreOrFail] raise exactly when the
    criteria select no row, whatever the rows' deletion dates. *)
Lemma deleteOrFail_table (w : FindOptionsWhere Columns) (t : Table) :
  BaseRepository.deleteOrFail repo w t
  = (if Memory.matching w t =? 0 then Throw (EntityNotFound entity) else Ok true,
     Memory.rewritten w Memory.softDeleted t).
Proof.
  apply (deleteOrFail_affected (Memory.manager Columns entity)). reflexivity.
Qed.

Lemma restoreOrFail_table (w : FindOptionsWhere Columns) (t : Table) :
  BaseRepository.restoreOrFail repo w t
  = (if Memory.matching w t =? 0 then Throw (EntityNotFound entity) else Ok true,
     Memory.rewritten w Memory.restored t).
Proof.
  apply (restoreOrFail_affected (Memory.manager Columns entity)). reflexivity.
Qed.

(** After a soft delete on [{ id }], no row with that identity is left
    not deleted. *)
Lemma softDeleted_rows_deleted (i : Z) (t : Table) (r' : Entity) :
  In r' (Memory.rows (Memory.rewritten (whereId (Some i)) Memory.softDeleted t)) ->
  id r' = Some i -> Memory.notDeleted r' = false.
Proof.
  intros Hin Hid. apply rewritten_inv in Hin.
  destruct Hin as [r [_ [[_ ->] | [Hw ->]]]].
  - reflexivity.
  - apply whereId_true in Hid. congruence.
Qed.

(** C6, as the code has it.  [deleteOrFail] on [{ id }] for an identity some
    record has returns true, and a default [find] afterwards returns no
    record with that identity.  A second [deleteOrFail] on the same
    [{ id }] returns true again: the soft delete selects rows by the
    criteria alone, so it selects the deleted row as well.
    [EntityNotFound] is raised when no record has the identity. *)
Theorem deleteOrFail_by_id (i : Z) (t : Table) :
  let w := whereId (Some i) in
  let t1 := Memory.rewritten w Memory.softDeleted t in
  let t2 := Memory.rewritten w Memory.softDeleted t1 in
  ((exists r, In r (Memory.rows t) /\ id r = Some i) ->
     BaseRepository.deleteOrFail repo w t = (Ok true, t1) /\
     (exists l, BaseRepository.find repo None t1 = (Ok l, t1) /\
                forall r, In r l -> id r <> Some i) /\
     BaseRepository.deleteOrFail repo w t1 = (Ok true, t2)) /\
  ((forall r, In r (Memory.rows t) -> id r <> Some i) ->
     BaseRepository.deleteOrFail repo w t = (Throw (EntityNotFound entity), t1)).
Proof.
  intros w t1 t2. split.
  - intros [r0 [Hin Hid]].
    assert (Hw : w r0 = true) by (apply whereId_true; exact Hid).
    split; [| split].
    + rewrite deleteOrFail_table, (matching_positive w t r0 Hin Hw). reflexivity.
    + exists (filter (Memory.selected Memory.noOptions) (Memory.rows t1)).
      split; [reflexivity |].
      intros r Hr Hidr. apply filter_In in Hr. destruct Hr as [Hr Hsel].
      unfold Memory.selected in Hsel. cbn [where_ withDeleted Memory.noOptions] in Hsel.
      rewrite (softDeleted_rows_deleted i t r Hr Hidr) in Hsel. discriminate.
    + rewrite deleteOrFail_table.
      rewrite (matching_positive w t1 (Memory.softDeleted (Memory.clock t) r0)).
      * reflexivity.
      * apply rewritten_In; assumption.
      * apply whereId_true. exact Hid.
  - intros Hno. rewrite deleteOrFail_table.
    rewrite (proj2 (matching_zero w t)); [reflexivity |].
    intros r Hr. apply whereId_false. auto.
Qed.

(** C7, as the code has it.  [restoreOrFail] returns true as soon as the
    criteria select a record, deleted or not: a never-deleted record the
    criteria select is among the affected rows and stays not deleted.
    [EntityNotFound] is raised when the criteria select no record. *)
Theorem restoreOrFail_by_criteria (w : FindOptionsWhere Columns) (t : Table) :
  let t1 := Memory.rewritten w Memory.restored t in
  (forall r, In r (Memory.rows t) -> w r = true ->
     BaseRepository.restoreOrFail repo w t = (Ok true, t1) /\
     In (Memory.restored (Memory.clock t) r) (Memory.rows t1) /\
     deletedAt (Memory.restored (Memory.clock t) r) = None) /\
  ((forall r, In r (Memory.rows t) -> w r = false) ->
     BaseRepository.restoreOrFail repo w t = (Throw (EntityNotFound entity), t1)).
Proof.
  intros t1. split.
  - intros r Hr Hw. split; [| split].
    + rewrite restoreOrFail_table, (matching_positive w t r Hr Hw). reflexivity.
    + apply rewritten_In; assumption.
    + reflexivity.
  - intros Hno. rewrite restoreOrFail_table.
    rewrite (proj2 (matching_zero w t) Hno). reflexivity.
Qed.

(** C8.  For a record [r0] with identity [i], [deleteById i] and then
    [restoreById i] both return true, and leave a record with that identity,
    the columns and the creation date of [r0], whose [deletedAt] is null and
    which a default [find] returns. *)
Theorem deleteById_then_restoreById (i : Z) (t : Table) (r0 : Entity) :
  In r0 (Memory.rows t) -> id r0 = Some i ->
  let t1 := Memory.rewritten (whereId (Some i)) Memory.softDeleted t in
  let t2 := Memory.rewritten (whereId (Some i)) Memory.restored t1 in
  BaseService.deleteById service i t = (Ok true, t1) /\
  BaseService.restoreById service i t1 = (Ok true, t2) /\
  exists (r : Entity) (l : list Entity),
    In r (Memory.rows t2) /\ id r = Some i /\
    columns r = columns r0 /\ createdAt r = createdAt r0 /\
    deletedAt r = None /\
    BaseService.find service None t2 = (Ok l, t2) /\ In r l.
Proof.
  intros Hin Hid t1 t2.
  assert (Hw : whereId (Some i) r0 = true) by (apply whereId_true; exact Hid).
  set (r1 := Memory.softDeleted (Memory.clock t) r0).
  assert (Hin1 : In r1 (Memory.rows t1)) by (apply rewritten_In; assumption).
  assert (Hw1 : whereId (Some i) r1 = true) by (apply whereId_true; exact Hid).
  set (r2 := Memory.restored (Memory.clock t1) r1).
  assert (Hin2 : In r2 (Memory.rows t2)) by (apply rewritten_In; assumption).
  split; [| split].
  - unfold BaseService.deleteById. cbn [BaseService.repository serviceOf BaseService.new].
    rewrite deleteOrFail_table, (matching_positive _ t r0 Hin Hw). reflexivity.
  - unfold BaseService.restoreById. cbn [BaseService.repository serviceOf BaseService.new].
    rewrite restoreOrFail_table, (matching_positive _ t1 r1 Hin1 Hw1). reflexivity.
  - exists r2, (filter (Memory.selected Memory.noOptions) (Memory.rows t2)).
    repeat split; try reflexivity; try assumption.
    apply filter_In. split; [exact Hin2 | reflexivity].
Qed.

Lemma find_some_exists (f : Entity -> bool) (l : list Entity) (r : Entity) :
  In r l -> f r = true -> exists e, List.find f l = Some e.
Proof.
  induction l as [| x l IH]; intros Hin Hf; [destruct Hin |].
  cbn. destruct (f x) eqn:E; [eexists; reflexivity |].
  destruct Hin as [-> | Hin]; [congruence | auto].
Qed.

(** What a save leaves behind in a well-formed table: the saved record has
    an identity [i], the one [data] carries if it carries one; every row
    with that identity has the columns of [data], and is not deleted only
    if [data] has no deletion date; every row has its two dates. *)
Lemma save_table (data : Entity) (t : Table) :
  Memory.wellFormed t ->
  exists (i : Z) (saved : Entity) (t1 : Table),
    Memory.save data t = (Ok saved, t1) /\
    id saved = Some i /\
    (id data = None \/ id data = Some i) /\
    (forall r, In r (Memory.rows t1) -> id r = Some i ->
       columns r = columns data /\ (deletedAt r = None -> deletedAt data = None)) /\
    (forall r, In r (Memory.rows t1) -> createdAt r <> None /\ updatedAt r <> None) /\
    (id data = None -> In saved (Memory.rows t1) /\ deletedAt saved = deletedAt data).
Proof.
  intros Hwf. unfold Memory.save.
  assert (Hins : forall i,
    (id data = None \/ id data = Some i) ->
    (forall r, In r (Memory.rows t) -> id r <> Some i) ->
    exists (i' : Z) (saved : Entity) (t1 : Table),
      Memory.insert i data t = (Ok saved, t1) /\
      id saved = Some i' /\
      (id data = None \/ id data = Some i') /\
      (forall r, In r (Memory.rows t1) -> id r = Some i' ->
         columns r = columns data /\ (deletedAt r = None -> deletedAt data = None)) /\
      (forall r, In r (Memory.rows t1) -> createdAt r <> None /\ updatedAt r <> None) /\
      (id data = None -> In saved (Memory.rows t1) /\ deletedAt saved = deletedAt data)).
  { intros i Hi Hfresh.
    exists i, (Memory.inserted i (Memory.clock t) data). eexists.
    split; [reflexivity |]. split; [reflexivity |]. split; [exact Hi |].
    cbn [Memory.rows]. split; [| split].
    - intros r Hr Hid. apply in_app_or in Hr. destruct Hr as [Hr | [<- | []]].
      + destruct (Hfresh r Hr Hid).
      + split; [reflexivity | intros H; exact H].
    - intros r Hr. apply in_app_or in Hr. destruct Hr as [Hr | [<- | []]].
      + destruct (Hwf r Hr) as [_ H]. exact H.
      + split; discriminate.
    - intros _. split; [| reflexivity]. apply in_or_app. right. left. reflexivity. }
  destruct (id data) as [i |] eqn:Eid.
  - destruct (List.find (Memory.hasId i) (Memory.rows t)) as [r0 |] eqn:Efind.
    + apply find_some in Efind. destruct Efind as [Hin0 Hid0].
      apply whereId_true in Hid0.
      exists i, (Memory.merged (Memory.clock t) data r0). eexists.
      split; [reflexivity |]. split; [exact Hid0 |].
      split; [right; reflexivity |].
      cbn [Memory.rows]. split; [| split].
      * intros r' Hr' Hid'. apply in_map_iff in Hr'. destruct Hr' as [r [E Hr]].
        destruct (Memory.hasId i r) eqn:Eh.
        -- subst r'. split; [reflexivity |].
           cbn. destruct (deletedAt data); [discriminate | reflexivity].
        -- subst r'. apply whereId_true in Hid'. unfold Memory.hasId in Eh.
           congruence.
      * intros r' Hr'. apply in_map_iff in Hr'. destruct Hr' as [r [E Hr]].
        destruct (Hwf r Hr) as [_ [Hc Hu]].
        destruct (Memory.hasId i r); subst r'; [| split; assumption].
        split; [| discriminate].
        cbn. destruct (createdAt data); [discriminate | exact Hc].
      * discriminate.
    + apply (Hins i); [right; reflexivity |].
      intros r Hr Hid. apply (find_none _ _ Efind) in Hr.
      apply whereId_true in Hid. unfold Memory.hasId in Hr. congruence.
  - apply (Hins (Memory.nextId t)); [left; reflexivity |].
    intros r Hr Hid. destruct (Hwf r Hr) as [[j [Hj Hlt]] _].
    rewrite Hid in Hj. injection Hj as <-. lia.
Qed.

(** Well-formedness is an invariant of the table: every operation of the
    manager keeps it. *)
Lemma wellFormedRow_mono (next next' : Z) (r : Entity) :
  next <= next' -> Memory.wellFormedRow next r -> Memory.wellFormedRow next' r.
Proof.
  intros Hle [[j [Hj Hlt]] Hdates]. split; [| exact Hdates].
  exists j. split; [exact Hj | lia].
Qed.

Lemma wellFormed_rewritten (w : FindOptionsWhere Columns)
    (change : Date -> Entity -> Entity) (t : Table) :
  (forall now r,
     Memory.wellFormedRow (Memory.nextId t) r ->
     Memory.wellFormedRow (Memory.nextId t) (change now r)) ->
  Memory.wellFormed t -> Memory.wellFormed (Memory.rewritten w change t).
Proof.
  intros Hchange Hwf r' Hr'. apply rewritten_inv in Hr'.
  destruct Hr' as [r [Hr [[_ ->] | [_ ->]]]]; cbn [Memory.nextId Memory.rewritten].
  - apply Hchange. exact (Hwf r Hr).
  - exact (Hwf r Hr).
Qed.

Lemma wellFormed_update (w : FindOptionsWhere Columns)
    (p : QueryDeepPartialEntity Columns) (t : Table) :
  (forall n, setId p = Some n -> n < Memory.nextId t) ->
  Memory.wellFormed t -> Memory.wellFormed (snd (Memory.update w p t)).
Proof.
  intros Hkey. apply wellFormed_rewritten. intros now r [Hid [Hc Hu]].
  split; [| split; cbn; [| discriminate]].
  - cbn. destruct (setId p) as [n |]; [| exact Hid].
    exists n. split; [reflexivity | apply Hkey; reflexivity].
  - destruct (setCreatedAt p); [discriminate | exact Hc].
Qed.

Lemma wellFormed_softDelete (w : FindOptionsWhere Columns) (t : Table) :
  Memory.wellFormed t -> Memory.wellFormed (snd (Memory.softDelete w t)).
Proof.
  apply wellFormed_rewritten. intros now r [Hid [Hc Hu]].
  split; [exact Hid |]. split; [exact Hc | discriminate].
Qed.

Lemma wellFormed_restore (w : FindOptionsWhere Columns) (t : Table) :
  Memory.wellFormed t -> Memory.wellFormed (snd (Memory.restore w t)).
Proof.
  apply wellFormed_rewritten. intros now r [Hid [Hc Hu]].
  split; [exact Hid |]. split; [exact Hc | discriminate].
Qed.

Lemma wellFormed_insert (i : Z) (data : Entity) (t : Table) :
  Memory.wellFormed t -> Memory.wellFormed (snd (Memory.insert i data t)).
Proof.
  intros Hwf r Hr. cbn in Hr |- *. apply in_app_or in Hr.
  destruct Hr as [Hr | [<- | []]].
  - apply (wellFormedRow_mono (Memory.nextId t)); [lia | exact (Hwf r Hr)].
  - split; [| split; discriminate].
    exists i. split; [reflexivity | lia].
Qed.

Lemma wellFormed_save (data : Entity) (t : Table) :
  Memory.wellFormed t -> Memory.wellFormed (snd (Memory.save data t)).
Proof.
  intros Hwf. unfold Memory.save.
  destruct (id data) as [i |]; [| apply wellFormed_insert; exact Hwf].
  destruct (List.find (Memory.hasId i) (Memory.rows t)) as [r0 |];
    [| apply wellFormed_insert; exact Hwf].
  intros r' Hr'. cbn [snd Memory.rows Memory.nextId] in Hr' |- *.
  apply in_map_iff in Hr'.
  destruct Hr' as [r [E Hr]]. destruct (Hwf r Hr) as [Hid [Hc Hu]].
  destruct (Memory.hasId i r); subst r'.
  - split; [exact Hid |]. split; cbn; [| discriminate].
    destruct (createdAt data); [discriminate | exact Hc].
  - split; [exact Hid |]. split; [exact Hc | exact Hu].
Qed.

(** C2.  In a well-formed table, [create] on fresh data (no identity, no
    deletion date) resolves to a record.  Whenever [create] resolves to a
    record [E], [findOneByIdOrFail] on the identity of [E] returns [E]; [E]
    has the columns of the data, its identity where the data carries one,
    like the data no deletion date, and non-null [createdAt] and
    [updatedAt]. *)
Theorem create_then_findOneByIdOrFail (data : Entity) (t : Table) :
  Memory.wellFormed t ->
  (id data = None -> deletedAt data = None ->
     exists E t', BaseService.create service data t = (Ok (Some E), t')) /\
  (forall E t', BaseService.create service data t = (Ok (Some E), t') ->
     exists i, id E = Some i /\
       BaseService.findOneByIdOrFail service i t' = (Ok (Some E), t') /\
       columns E = columns data /\
       (id data = None \/ id data = Some i) /\
       deletedAt E = None /\ deletedAt data = None /\
       createdAt E <> None /\ updatedAt E <> None).
Proof.
  intros Hwf.
  destruct (save_table data t Hwf)
    as [i [saved [t1 [Hsave [Hid [Hdata [Hsame [Hdates Hfresh]]]]]]]].
  assert (Hcreate : BaseService.create service data t
                    = (Ok (List.find (Memory.selected (optWhere (whereId (Some i))))
                                     (Memory.rows t1)), t1)).
  { unfold BaseService.create, BaseService.findOne, BaseRepository.create,
      BaseRepository.findOne, bind. cbn.
    rewrite Hsave, Hid. reflexivity. }
  split.
  - intros Hnone Hlive. destruct (Hfresh Hnone) as [Hin Hdel].
    destruct (find_some_exists (Memory.selected (optWhere (whereId (Some i))))
                (Memory.rows t1) saved Hin) as [E HE].
    + unfold Memory.selected, optWhere. cbn [where_ withDeleted].
      rewrite (proj2 (whereId_true i saved) Hid).
      unfold Memory.notDeleted. rewrite Hdel, Hlive. reflexivity.
    + exists E, t1. rewrite Hcreate, HE. reflexivity.
  - intros E t' HE. rewrite Hcreate in HE. injection HE as HE <-.
    destruct (find_some _ _ HE) as [Hin Hsel].
    unfold Memory.selected, optWhere in Hsel. cbn [where_ withDeleted] in Hsel.
    apply andb_prop in Hsel. destruct Hsel as [Hw Hnd].
    apply whereId_true in Hw.
    assert (HdelE : deletedAt E = None).
    { unfold Memory.notDeleted in Hnd. cbn in Hnd.
      destruct (deletedAt E); [discriminate | reflexivity]. }
    destruct (Hsame E Hin Hw) as [Hcols Hdel].
    destruct (Hdates E Hin) as [Hc Hu].
    exists i. split; [exact Hw |]. split.
    + unfold BaseService.findOneByIdOrFail, BaseService.findOneOrFail.
      cbn [BaseService.repository serviceOf BaseService.new].
      apply (findOneOrFail_present (Memory.manager Columns entity)).
      cbn. unfold Memory.findOne. rewrite HE. reflexivity.
    + repeat split; auto.
Qed.
End OverTable.

(** ** The user repository and service on sample tables *)

Lemma tableA_wellFormed : Memory.wellFormed tableA.
Proof.
  intros r [<- | []]. split; [| split].
  - exists 1. split; [reflexivity | reflexivity].
  - discriminate.
  - discriminate.
Defined.



Lemma create_then_findOneByIdOrFail_witness :
  Memory.wellFormed tableA /\
  exists E t', BaseService.create UserService userA tableA = (Ok (Some E), t').
Proof.
  split; [exact tableA_wellFormed |].
  apply (proj1 (create_then_findOneByIdOrFail "User" userA tableA
                  tableA_wellFormed)); reflexivity.
Defined.

(** C3.  On the empty table, with a filter that matches nothing,
    [findOrCreate] resolves to null and the table is still empty: the data
    is neither persisted nor returned, where [create] on the same data
    persists it. *)
Theorem findOrCreate_absent_does_not_persist :
  BaseRepository.findOne UserRepository (optWhere (whereId (Some 1))) emptyTable
  = (Ok None, emptyTable) /\
  BaseRepository.findOrCreate UserRepository (optWhere (whereId (Some 1)))
    userA emptyTable
  = (Ok None, emptyTable) /\
  Memory.rows (snd (BaseRepository.findOrCreate UserRepository
                      (optWhere (whereId (Some 1))) userA emptyTable)) = [] /\
  BaseRepository.create UserRepository userA emptyTable = (Ok storedA, tableA).
Proof.
  repeat split.
Qed.


(** C6 as stated fails: user 1 exists and is not deleted; the first
    [deleteOrFail] on [{ id: 1 }] returns true, and so does the second, which
    raises no [EntityNotFound]. *)
Lemma deleteOrFail_second_call_counterexample :
  BaseRepository.deleteOrFail UserRepository (whereId (Some 1)) tableA
  = (Ok true, tableGone) /\
  BaseRepository.find UserRepository None tableGone = (Ok [], tableGone) /\
  fst (BaseRepository.deleteOrFail UserRepository (whereId (Some 1)) tableGone)
  = Ok true /\
  fst (BaseRepository.deleteOrFail UserRepository (whereId (Some 1)) tableGone)
  <> Throw (EntityNotFound "User").
Proof.
  repeat split. discriminate.
Qed.

Lemma deleteOrFail_by_id_witness :
  (exists r, In r (Memory.rows tableA) /\ id r = Some 1) /\
  BaseRepository.deleteOrFail UserRepository (whereId (Some 1)) tableA
  = (Ok true, tableGone) /\
  BaseRepository.deleteOrFail UserRepository (whereId (Some 1)) tableGone
  = (Ok true, Memory.rewritten (whereId (Some 1)) Memory.softDeleted tableGone).
Proof.
  assert (H : exists r, In r (Memory.rows tableA) /\ id r = Some 1).
  { exists storedA. split; [left; reflexivity | reflexivity]. }
  split; [exact H |].
  destruct (proj1 (deleteOrFail_by_id "User" 1 tableA) H) as [H1 [_ H2]].
  split; [exact H1 | exact H2].
Defined.

(** C7 as stated fails: user 1 was never deleted, and [restoreOrFail] on
    [{ id: 1 }] returns true; it raises no [EntityNotFound]. *)
Lemma restoreOrFail_never_deleted_counterexample :
  In storedA (Memory.rows tableA) /\ deletedAt storedA = None /\
  BaseRepository.restoreOrFail UserRepository (whereId (Some 1)) tableA
  = (Ok true, tableTouched) /\
  fst (BaseRepository.restoreOrFail UserRepository (whereId (Some 1)) tableA)
  <> Throw (EntityNotFound "User").
Proof.
  split; [left; reflexivity |]. repeat split. discriminate.
Qed.

Lemma restoreOrFail_by_criteria_witness :
  In storedA (Memory.rows tableA) /\ whereId (Some 1) storedA = true /\
  BaseRepository.restoreOrFail UserRepository (whereId (Some 1)) tableA
  = (Ok true, tableTouched).
Proof.
  assert (Hin : In storedA (Memory.rows tableA)) by (left; reflexivity).
  split; [exact Hin |]. split; [reflexivity |].
  exact (proj1 (proj1 (restoreOrFail_by_criteria "User" (whereId (Some 1)) tableA)
                  storedA Hin eq_refl)).
Defined.

Lemma deleteById_then_restoreById_witness :
  In storedA (Memory.rows tableA) /\ id storedA = Some 1 /\
  BaseService.deleteById UserService 1 tableA = (Ok true, tableGone) /\
  BaseService.restoreById UserService 1 tableGone
  = (Ok true, Memory.rewritten (whereId (Some 1)) Memory.restored tableGone).
Proof.
  assert (Hin : In storedA (Memory.rows tableA)) by (left; reflexivity).
  split; [exact Hin |]. split; [reflexivity |].
  destruct (deleteById_then_restoreById "User" 1 tableA storedA Hin eq_refl)
    as [H1 [H2 _]].
  split; [exact H1 | exact H2].
Defined.

Lemma create_resolves_to_null_witness :
  BaseService.create UserService userGone emptyTable
  = (Ok None,
     Memory.mkTable
       [{| id := Some 1; createdAt := Some 1000; updatedAt := Some 1000;
           deletedAt := Some 5; columns := columns userGone |}] 2 1001).
Proof.
  apply (create_resolves_to_null (Memory.manager UserColumns "User") userGone
           {| id := Some 1; createdAt := Some 1000; updatedAt := Some 1000;
              deletedAt := Some 5; columns := columns userGone |}
           emptyTable
           (Memory.mkTable
              [{| id := Some 1; createdAt := Some 1000; updatedAt := Some 1000;
                  deletedAt := Some 5; columns := columns userGone |}] 2 1001));
    reflexivity.
Defined.

(** ** The naming strategy *)

Section SnakeCase.
Import SnakeCaseStrategy.
Local Open Scope string_scope.

(** Induction on names two characters at a time, as [replaceCapitals]
    reads them. *)
Lemma string_ind2 (P : string -> Prop) :
  P "" ->
  (forall c, P (String c "")) ->
  (forall c d s, P s -> P (String d s) -> P (String c (String d s))) ->
  forall s, P s.
Proof.
  intros H0 H1 H2.
  assert (H : forall s, P s /\ forall c, P (String c s)).
  { induction s as [| d s [IHs IHc]].
    - split; [exact H0 | exact H1].
    - split; [apply IHc |]. intros c. apply H2; [exact IHs | apply IHc]. }
  intros s. apply H.
Qed.

Ltac all_chars c := destruct c as [[] [] [] [] [] [] [] []]; try discriminate; reflexivity.

Lemma toLower_not_upper (c : ascii) : isUpper (toLower c) = false.
Proof. all_chars c. Qed.

Lemma upper_toLower_not_separator (c : ascii) :
  isUpper c = true -> isUnderscore (toLower c) || isDot (toLower c) = false.
Proof. all_chars c. Qed.

Lemma upper_not_separator (c : ascii) :
  isUpper c = true -> isUnderscore c || isDot c = false.
Proof. all_chars c. Qed.

Lemma toLower_fixed (c : ascii) : isUpper c = false -> toLower c = c.
Proof. unfold toLower. intros ->. reflexivity. Qed.

Lemma replaceCapitals_step (c d : ascii) (s : string) :
  replaceCapitals (String c (String d s))
  = if isUpper c
    then String "_" (String (toLower c) (replaceCapitals (String d s)))
    else if isDot c && isUpper d
         then String "_" (String (toLower d) (replaceCapitals s))
         else String c (replaceCapitals (String d s)).
Proof. reflexivity. Qed.

Lemma replaceCapitals_no_upper (s : string) : hasUpper (replaceCapitals s) = false.
Proof.
  induction s as [| c | c d s IHs IHd] using string_ind2.
  - reflexivity.
  - cbn [replaceCapitals]. destruct (isUpper c) eqn:E; cbn [hasUpper].
    + rewrite toLower_not_upper. reflexivity.
    + rewrite E. reflexivity.
  - rewrite replaceCapitals_step. destruct (isUpper c) eqn:Ec.
    + cbn [hasUpper]. rewrite toLower_not_upper. exact IHd.
    + destruct (isDot c && isUpper d).
      * cbn [hasUpper]. rewrite toLower_not_upper. exact IHs.
      * cbn [hasUpper]. rewrite Ec. exact IHd.
Qed.

Lemma dropLeadingUnderscore_no_upper (s : string) :
  hasUpper s = false -> hasUpper (dropLeadingUnderscore s) = false.
Proof.
  destruct s as [| c s]; [reflexivity |]. cbn.
  intros H. destruct (isUnderscore c); [| exact H].
  apply orb_false_elim in H. apply H.
Qed.

Lemma snakeCase_no_upper (s : string) : hasUpper (snakeCase s) = false.
Proof.
  apply dropLeadingUnderscore_no_upper, replaceCapitals_no_upper.
Qed.

(** X13.  No name the strategy derives has a capital letter: not
    [snakeCase], not a column or relation name, and not a table name when
    there is no custom name (absent or empty); a non-empty custom table
    name is returned as it is. *)
Theorem derived_names_have_no_capitals (name : string) :
  hasUpper (snakeCase name) = false /\
  (forall customName prefixes,
     hasUpper (columnName name customName prefixes) = false) /\
  hasUpper (relationName name) = false /\
  hasUpper (tableName name None) = false /\
  hasUpper (tableName name (Some "")) = false /\
  (forall c rest, tableName name (Some (String c rest)) = String c rest).
Proof.
  repeat split; intros; try apply snakeCase_no_upper.
Qed.

Lemma replaceCapitals_fixed (s : string) :
  hasUpper s = false -> replaceCapitals s = s.
Proof.
  induction s as [| c | c d s IHs IHd] using string_ind2; intros H.
  - reflexivity.
  - cbn in H |- *. apply orb_false_elim in H. destruct H as [-> _]. reflexivity.
  - cbn [hasUpper] in H. apply orb_false_elim in H. destruct H as [Hc H].
    assert (Hd : isUpper d = false).
    { cbn [hasUpper] in H. apply orb_false_elim in H. apply H. }
    rewrite replaceCapitals_step, Hc, Hd, andb_false_r.
    f_equal. exact (IHd H).
Qed.

Lemma snakeCase_fixed (s : string) :
  hasUpper s = false -> startsWithUnderscore s = false -> snakeCase s = s.
Proof.
  intros Hup Hunder. unfold snakeCase. rewrite (replaceCapitals_fixed s Hup).
  destruct s as [| c rest]; [reflexivity |].
  cbn in Hunder |- *. rewrite Hunder. reflexivity.
Qed.

(** X14.  A name with no capital that does not start with an underscore is
    its own snake case. *)
Theorem snakeCase_keeps_snake_names (name : string) :
  hasUpper name = false -> startsWithUnderscore name = false ->
  snakeCase name = name.
Proof.
  intros Hup Hunder. apply snakeCase_fixed; assumption.
Qed.

Lemma replaceCapitals_content (s : string) :
  withoutSeparators (replaceCapitals s) = lowerCase (withoutSeparators s).
Proof.
  induction s as [| c | c d s IHs IHd] using string_ind2.
  - reflexivity.
  - cbn [replaceCapitals]. destruct (isUpper c) eqn:Ec.
    + cbn [withoutSeparators]. rewrite (upper_not_separator c Ec).
      cbn. rewrite (upper_toLower_not_separator c Ec). reflexivity.
    + cbn [withoutSeparators]. destruct (isUnderscore c || isDot c); [reflexivity |].
      cbn. rewrite (toLower_fixed c Ec). reflexivity.
  - rewrite replaceCapitals_step. destruct (isUpper c) eqn:Ec.
    + cbn [withoutSeparators] in IHd |- *.
      rewrite (upper_not_separator c Ec).
      replace (isUnderscore "_" || isDot "_") with true by reflexivity.
      rewrite (upper_toLower_not_separator c Ec).
      cbn [lowerCase]. f_equal. exact IHd.
    + destruct (isDot c) eqn:Edot; cbn [andb].
      * destruct (isUpper d) eqn:Ed.
        -- cbn [withoutSeparators].
           replace (isUnderscore "_" || isDot "_") with true by reflexivity.
           rewrite Edot, orb_true_r.
           rewrite (upper_not_separator d Ed), (upper_toLower_not_separator d Ed).
           cbn [lowerCase]. f_equal. exact IHs.
        -- change (withoutSeparators (String c (replaceCapitals (String d s)))
                   = lowerCase (withoutSeparators (String c (String d s)))).
           cbn [withoutSeparators] in IHd |- *. rewrite Edot, orb_true_r.
           exact IHd.
      * change (withoutSeparators (String c (replaceCapitals (String d s)))
                = lowerCase (withoutSeparators (String c (String d s)))).
        cbn [withoutSeparators] in IHd |- *. rewrite Edot, orb_false_r.
        destruct (isUnderscore c); [exact IHd |].
        cbn [lowerCase]. rewrite (toLower_fixed c Ec). f_equal. exact IHd.
Qed.

(** X15.  Apart from underscores and dots, the snake case of a name is the
    name in lower case: no other character is added, dropped or moved. *)
Theorem snakeCase_keeps_content (name : string) :
  withoutSeparators (snakeCase name) = lowerCase (withoutSeparators name).
Proof.
  rewrite <- replaceCapitals_content. unfold snakeCase.
  destruct (replaceCapitals name) as [| c rest]; [reflexivity |].
  cbn. destruct (isUnderscore c) eqn:E; [reflexivity |].
  cbn. rewrite E. reflexivity.
Qed.

Lemma snakeCase_no_leading_underscore (s : string) :
  startsWithUnderscore s = false -> startsWithUnderscore (snakeCase s) = false.
Proof.
  assert (Hlow : forall c, isUpper c = true -> isUnderscore (toLower c) = false).
  { intros c Hc. pose proof (upper_toLower_not_separator c Hc) as H.
    apply orb_false_elim in H. apply H. }
  destruct s as [| c rest]; [reflexivity |]. intros H. cbn in H.
  unfold snakeCase. cbn [replaceCapitals].
  destruct (isUpper c) eqn:Ec.
  - cbn. apply Hlow. exact Ec.
  - destruct rest as [| d rest'].
    + cbn. rewrite H. cbn. exact H.
    + destruct (isDot c && isUpper d) eqn:E.
      * apply andb_prop in E. cbn. apply Hlow. apply E.
      * cbn [dropLeadingUnderscore]. rewrite H. cbn. exact H.
Qed.

(** X16.  On a name that does not start with an underscore, [snakeCase] is
    idempotent. *)
Theorem snakeCase_idempotent (name : string) :
  startsWithUnderscore name = false ->
  snakeCase (snakeCase name) = snakeCase name.
Proof.
  intros H. apply snakeCase_fixed.
  - apply snakeCase_no_upper.
  - apply snakeCase_no_leading_underscore. exact H.
Qed.

Lemma replaceCapitals_app (u w : string) :
  hasUpper u = false -> hasDot u = false ->
  replaceCapitals (u ++ w) = u ++ replaceCapitals w.
Proof.
  induction u as [| c u IH]; intros Hup Hdot; [reflexivity |].
  cbn [hasUpper] in Hup. apply orb_false_elim in Hup. destruct Hup as [Hc Hup].
  cbn [hasDot] in Hdot. apply orb_false_elim in Hdot. destruct Hdot as [Hd Hdot].
  specialize (IH Hup Hdot).
  change (String c u ++ w) with (String c (u ++ w)).
  change (String c u ++ replaceCapitals w)
    with (String c (u ++ replaceCapitals w)).
  rewrite <- IH.
  destruct (u ++ w) as [| d r].
  - cbn. rewrite Hc. reflexivity.
  - rewrite replaceCapitals_step, Hc, Hd. reflexivity.
Qed.

(** X17.  Camel humps.  A capitalised word with no further capital becomes
    the word in lower case, with no underscore before it; a word without
    capitals or dots, not empty and not starting with an underscore,
    followed by such a capitalised word becomes the two joined by one
    underscore. *)
Theorem snakeCase_camel (u v : string) (c : ascii) :
  isUpper c = true -> hasUpper v = false ->
  snakeCase (String c v) = String (toLower c) v /\
  (hasUpper u = false -> hasDot u = false -> u <> "" ->
   startsWithUnderscore u = false ->
   snakeCase (u ++ String c v) = u ++ String "_" (String (toLower c) v)).
Proof.
  intros Hc Hv.
  assert (Hword : replaceCapitals (String c v) = String "_" (String (toLower c) v)).
  { cbn [replaceCapitals]. rewrite Hc, (replaceCapitals_fixed v Hv). reflexivity. }
  split.
  - unfold snakeCase. rewrite Hword. reflexivity.
  - intros Hu Hdot Hne Hunder. unfold snakeCase.
    rewrite (replaceCapitals_app u (String c v) Hu Hdot), Hword.
    destruct u as [| a u]; [contradiction |].
    cbn in Hunder |- *. rewrite Hunder. reflexivity.
Qed.
End SnakeCase.

(** ** More on the layer over any manager *)

Section AnyManagerMore.
Context {Columns Store : Type}.
Variable m : EntityManager.t Columns Store.

Local Abbreviation repo := (BaseRepository.new m).
Local Abbreviation service := (BaseService.new (BaseRepository.new m)).
Local Abbreviation notFound := (EntityNotFound (EntityManager.metadataName m)).

Lemma updateOrFail_cases (w : FindOptionsWhere Columns)
    (p : QueryDeepPartialEntity Columns) (rel : option FindOptionsRelations)
    (s : Store) :
  BaseRepository.updateOrFail repo w p rel s
  = match EntityManager.update m w p s with
    | (Ok _, s1) =>
        match EntityManager.findOne m (optWhereRelations w rel) s1 with
        | (Ok (Some e), s2) => (Ok (Some e), s2)
        | (Ok None, s2) => (Throw notFound, s2)
        | (Throw x, s2) => (Throw x, s2)
        end
    | (Throw x, s1) => (Throw x, s1)
    end.
Proof.
  unfold BaseRepository.updateOrFail, BaseRepository.update, bind. cbn.
  destruct (EntityManager.update m w p s) as [[r | x] s1]; [| reflexivity].
  destruct (EntityManager.findOne m (optWhereRelations w rel) s1)
    as [[[e |] | x] s2]; reflexivity.
Qed.

Lemma findOneOrFail_cases (F : FindOneOptions Columns) (s : Store) :
  BaseRepository.findOneOrFail repo F s
  = match EntityManager.findOne m F s with
    | (Ok (Some e), s1) => (Ok (Some e), s1)
    | (Ok None, s1) => (Throw notFound, s1)
    | (Throw x, s1) => (Throw x, s1)
    end.
Proof.
  unfold BaseRepository.findOneOrFail, BaseRepository.findOne, bind. cbn.
  destruct (EntityManager.findOne m F s) as [[[e |] | x] s1]; reflexivity.
Qed.

(** X1.  An OrFail read never resolves to null: when [findOneOrFail],
    [findOneByIdOrFail], [updateOrFail] or the service's [update] resolve,
    they resolve to a record, the one the manager's read returned. *)
Theorem orFail_never_resolves_to_null :
  (forall F s v s',
     BaseRepository.findOneOrFail repo F s = (Ok v, s') ->
     exists e, v = Some e /\ EntityManager.findOne m F s = (Ok (Some e), s')) /\
  (forall i s v s',
     BaseService.findOneByIdOrFail service i s = (Ok v, s') ->
     exists e, v = Some e /\
       EntityManager.findOne m (optWhere (whereId (Some i))) s = (Ok (Some e), s')) /\
  (forall w p rel s v s',
     BaseRepository.updateOrFail repo w p rel s = (Ok v, s') ->
     exists e, v = Some e) /\
  (forall w p rel s v s',
     BaseService.update service w p rel s = (Ok v, s') ->
     exists e, v = Some e).
Proof.
  assert (Hfind : forall F s v s',
    BaseRepository.findOneOrFail repo F s = (Ok v, s') ->
    exists e, v = Some e /\ EntityManager.findOne m F s = (Ok (Some e), s')).
  { intros F s v s' H. rewrite findOneOrFail_cases in H.
    destruct (EntityManager.findOne m F s) as [[[e |] | x] s1];
      try discriminate.
    injection H as <- <-. exists e. split; reflexivity. }
  assert (Hupd : forall w p rel s v s',
    BaseRepository.updateOrFail repo w p rel s = (Ok v, s') ->
    exists e, v = Some e).
  { intros w p rel s v s' H. rewrite updateOrFail_cases in H.
    destruct (EntityManager.update m w p s) as [[r | x] s1]; try discriminate.
    destruct (EntityManager.findOne m (optWhereRelations w rel) s1)
      as [[[e |] | x] s2]; try discriminate.
    injection H as <- <-. exists e. reflexivity. }
  split; [exact Hfind |]. split; [| split; [exact Hupd |]].
  - intros i s v s' H. apply Hfind. exact H.
  - intros w p rel s v s' H. apply (Hupd w p rel s v s'). exact H.
Qed.

(** X2.  Once the manager's soft delete (or restore) has answered,
    [deleteOrFail] (or [restoreOrFail]) raises [EntityNotFound] exactly when
    the affected count is the number 0 or null, and returns true on every
    other answer, an undefined count included. *)
Theorem orFail_writes_decide_on_affected :
  (forall w s r s',
     EntityManager.softDelete m w s = (Ok r, s') ->
     (affected r = JsNumber 0 \/ affected r = JsNull ->
        BaseRepository.deleteOrFail repo w s = (Throw notFound, s')) /\
     (affected r <> JsNumber 0 -> affected r <> JsNull ->
        BaseRepository.deleteOrFail repo w s = (Ok true, s'))) /\
  (forall w s r s',
     EntityManager.restore m w s = (Ok r, s') ->
     (affected r = JsNumber 0 \/ affected r = JsNull ->
        BaseRepository.restoreOrFail repo w s = (Throw notFound, s')) /\
     (affected r <> JsNumber 0 -> affected r <> JsNull ->
        BaseRepository.restoreOrFail repo w s = (Ok true, s'))) /\
  (forall w s s',
     EntityManager.softDelete m w s = (Ok {| affected := JsUndefined |}, s') ->
     BaseRepository.deleteOrFail repo w s = (Ok true, s')).
Proof.
  split; [| split].
  - intros w s r s' H.
    unfold BaseRepository.deleteOrFail, BaseRepository.softDelete, bind. cbn.
    rewrite H. split.
    + intros Ha. rewrite (checkEntityExist_raises m _ s' Ha). reflexivity.
    + intros H0 Hn. rewrite (checkEntityExist_passes m _ s' H0 Hn). reflexivity.
  - intros w s r s' H.
    unfold BaseRepository.restoreOrFail, BaseRepository.restore, bind. cbn.
    rewrite H. split.
    + intros Ha. rewrite (checkEntityExist_raises m _ s' Ha). reflexivity.
    + intros H0 Hn. rewrite (checkEntityExist_passes m _ s' H0 Hn). reflexivity.
  - intros w s s' H.
    unfold BaseRepository.deleteOrFail, BaseRepository.softDelete, bind. cbn.
    rewrite H. reflexivity.
Qed.

(** X3.  A failure of the manager passes through the layer unchanged, and
    ends the method: the storage is left as the failed call left it.  When
    the manager's update fails, [update], [updateOrFail] and the service's
    [update] do not read again; when its save fails, the service's [create]
    does not read; a failed soft delete, restore or find ends
    [deleteOrFail], [restoreOrFail] and [count]. *)
Theorem manager_failures_pass_through (x : Exception) :
  (forall w p rel s s',
     EntityManager.update m w p s = (Throw x, s') ->
     BaseRepository.update repo w p rel s = (Throw x, s') /\
     BaseRepository.updateOrFail repo w p rel s = (Throw x, s') /\
     BaseService.update service w p rel s = (Throw x, s')) /\
  (forall data s s',
     EntityManager.save m data s = (Throw x, s') ->
     BaseService.create service data s = (Throw x, s')) /\
  (forall w s s',
     EntityManager.softDelete m w s = (Throw x, s') ->
     BaseRepository.deleteOrFail repo w s = (Throw x, s')) /\
  (forall w s s',
     EntityManager.restore m w s = (Throw x, s') ->
     BaseRepository.restoreOrFail repo w s = (Throw x, s')) /\
  (forall f s s',
     EntityManager.find m (Some (optWhere f)) s = (Throw x, s') ->
     BaseService.count service f s = (Throw x, s')).
Proof.
  split; [| split; [| split; [| split]]].
  - intros w p rel s s' H.
    assert (H1 : BaseRepository.updateOrFail repo w p rel s = (Throw x, s')).
    { rewrite updateOrFail_cases, H. reflexivity. }
    split; [| split; [exact H1 | exact H1]].
    unfold BaseRepository.update, bind. cbn. rewrite H. reflexivity.
  - intros data s s' H.
    unfold BaseService.create, BaseRepository.create, bind. cbn.
    rewrite H. reflexivity.
  - intros w s s' H.
    unfold BaseRepository.deleteOrFail, BaseRepository.softDelete, bind. cbn.
    rewrite H. reflexivity.
  - intros w s s' H.
    unfold BaseRepository.restoreOrFail, BaseRepository.restore, bind. cbn.
    rewrite H. reflexivity.
  - intros f s s' H.
    unfold BaseService.count, BaseRepository.find, bind. cbn.
    rewrite H. reflexivity.
Qed.

(** X4.  Where an exception of an OrFail method comes from: it is the
    manager's own, or it is [EntityNotFound] with the repository's entity
    name, raised on a null read or on an affected count of 0 or null. *)
Theorem orFail_exceptions_origin (x : Exception) :
  (forall F s s',
     BaseRepository.findOneOrFail repo F s = (Throw x, s') ->
     EntityManager.findOne m F s = (Throw x, s') \/
     (x = notFound /\ EntityManager.findOne m F s = (Ok None, s'))) /\
  (forall w p rel s s',
     BaseRepository.updateOrFail repo w p rel s = (Throw x, s') ->
     EntityManager.update m w p s = (Throw x, s') \/
     exists r s1,
       EntityManager.update m w p s = (Ok r, s1) /\
       (EntityManager.findOne m (optWhereRelations w rel) s1 = (Throw x, s') \/
        (x = notFound /\
         EntityManager.findOne m (optWhereRelations w rel) s1 = (Ok None, s')))) /\
  (forall w s s',
     BaseRepository.deleteOrFail repo w s = (Throw x, s') ->
     EntityManager.softDelete m w s = (Throw x, s') \/
     (x = notFound /\ exists r,
        EntityManager.softDelete m w s = (Ok r, s') /\
        (affected r = JsNumber 0 \/ affected r = JsNull))) /\
  (forall w s s',
     BaseRepository.restoreOrFail repo w s = (Throw x, s') ->
     EntityManager.restore m w s = (Throw x, s') \/
     (x = notFound /\ exists r,
        EntityManager.restore m w s = (Ok r, s') /\
        (affected r = JsNumber 0 \/ affected r = JsNull))).
Proof.
  assert (Hcheck : forall (data : JsValue Columns) (s s' : Store),
    BaseRepository.checkEntityExist repo data s = (Throw x, s') ->
    x = notFound /\ s' = s /\ (data = JsNumber 0 \/ data = JsNull)).
  { intros data s s'. unfold BaseRepository.checkEntityExist.
    destruct data as [ | | n | e | ]; cbn; try discriminate.
    - intros [= <- <-]. auto.
    - destruct (Z.eqb_spec n 0) as [-> | _]; cbn; [| discriminate].
      intros [= <- <-]. auto. }
  split; [| split; [| split]].
  - intros F s s' H. rewrite findOneOrFail_cases in H.
    destruct (EntityManager.findOne m F s) as [[[e |] | y] s1];
      try discriminate; injection H as <- <-; auto.
  - intros w p rel s s' H. rewrite updateOrFail_cases in H.
    destruct (EntityManager.update m w p s) as [[r | y] s1].
    + right. exists r, s1. split; [reflexivity |].
      destruct (EntityManager.findOne m (optWhereRelations w rel) s1)
        as [[[e |] | y] s2]; try discriminate; injection H as <- <-; auto.
    + left. injection H as <- <-. reflexivity.
  - intros w s s' H.
    unfold BaseRepository.deleteOrFail, BaseRepository.softDelete, bind in H.
    cbn in H.
    destruct (EntityManager.softDelete m w s) as [[r | y] s1];
      [| left; injection H as <- <-; reflexivity].
    destruct (BaseRepository.checkEntityExist repo (affected r) s1)
      as [[[] | y] s2] eqn:E; [discriminate |].
    injection H as <- <-. destruct (Hcheck _ _ _ E) as [-> [-> Ha]].
    right. split; [reflexivity |]. exists r. auto.
  - intros w s s' H.
    unfold BaseRepository.restoreOrFail, BaseRepository.restore, bind in H.
    cbn in H.
    destruct (EntityManager.restore m w s) as [[r | y] s1];
      [| left; injection H as <- <-; reflexivity].
    destruct (BaseRepository.checkEntityExist repo (affected r) s1)
      as [[[] | y] s2] eqn:E; [discriminate |].
    injection H as <- <-. destruct (Hcheck _ _ _ E) as [-> [-> Ha]].
    right. split; [reflexivity |]. exists r. auto.
Qed.
End AnyManagerMore.

(** ** More on the layer over a table *)

Section OverTableMore.
Context {Columns : Type}.
Variable entity : string.

Local Abbreviation Entity := (BaseEntity Columns).
Local Abbreviation Table := (Memory.Table Columns).
Local Abbreviation repo := (repositoryOf Columns entity).
Local Abbreviation service := (serviceOf Columns entity).
Local Abbreviation byId i := (Memory.selected (optWhere (whereId (Columns := Columns) (Some i)))).

Lemma byId_true (i : Z) (r : Entity) :
  byId i r = true <-> id r = Some i /\ deletedAt r = None.
Proof.
  unfold Memory.selected, optWhere, Memory.notDeleted. cbn [where_ withDeleted orb].
  rewrite andb_true_iff, whereId_true.
  destruct (deletedAt r); split; intros [H1 H2]; split; auto; discriminate.
Qed.

Lemma findOneByIdOrFail_table (i : Z) (t : Table) :
  BaseService.findOneByIdOrFail service i t
  = match List.find (byId i) (Memory.rows t) with
    | Some e => (Ok (Some e), t)
    | None => (Throw (EntityNotFound entity), t)
    end.
Proof.
  unfold BaseService.findOneByIdOrFail, BaseService.findOneOrFail.
  cbn [BaseService.repository serviceOf BaseService.new].
  unfold repositoryOf. rewrite findOneOrFail_cases. cbn. unfold Memory.findOne.
  destruct (List.find _ _); reflexivity.
Qed.

Lemma updateOrFail_table (w : FindOptionsWhere Columns)
    (p : QueryDeepPartialEntity Columns) (rel : option FindOptionsRelations)
    (t : Table) :
  BaseRepository.updateOrFail repo w p rel t
  = match List.find (Memory.selected (optWhereRelations w rel))
            (Memory.rows (Memory.rewritten w (Memory.patched p) t)) with
    | Some e => (Ok (Some e), Memory.rewritten w (Memory.patched p) t)
    | None => (Throw (EntityNotFound entity),
               Memory.rewritten w (Memory.patched p) t)
    end.
Proof.
  unfold repositoryOf. rewrite updateOrFail_cases. cbn. unfold Memory.findOne.
  destruct (List.find _ _); reflexivity.
Qed.

Lemma updateOrFail_table_after (w : FindOptionsWhere Columns)
    (p : QueryDeepPartialEntity Columns) (rel : option FindOptionsRelations)
    (t : Table) :
  snd (BaseRepository.updateOrFail repo w p rel t)
  = Memory.rewritten w (Memory.patched p) t.
Proof.
  rewrite updateOrFail_table.
  destruct (List.find _ _); reflexivity.
Qed.

Lemma count_table (f : FindOptionsWhere Columns) (t : Table) :
  BaseService.count service f t
  = (Ok (Z.of_nat (List.length (filter (Memory.selected (optWhere f))
                                        (Memory.rows t)))), t).
Proof. reflexivity. Qed.



(** X6.  After [deleteById i], whatever it answered, [findOneByIdOrFail i]
    raises [EntityNotFound] and [count] on [{ id: i }] is 0. *)
Theorem deleteById_then_lookup_fails (i : Z) (t : Table) :
  let t1 := snd (BaseService.deleteById service i t) in
  BaseService.findOneByIdOrFail service i t1 = (Throw (EntityNotFound entity), t1) /\
  BaseService.count service (whereId (Some i)) t1 = (Ok 0, t1).
Proof.
  unfold BaseService.deleteById.
  cbn [BaseService.repository serviceOf BaseService.new].
  rewrite deleteOrFail_table. cbn [snd]. cbn zeta.
  assert (Hnone : forall r,
    In r (Memory.rows (Memory.rewritten (whereId (Some i)) Memory.softDeleted t)) ->
    byId i r = false).
  { intros r Hr. destruct (byId i r) eqn:E; [| reflexivity].
    apply byId_true in E. destruct E as [Hid Hdel].
    pose proof (softDeleted_rows_deleted i t r Hr Hid) as Hgone.
    unfold Memory.notDeleted in Hgone. rewrite Hdel in Hgone. discriminate. }
  split.
  - rewrite findOneByIdOrFail_table, (find_none_all _ _ Hnone). reflexivity.
  - rewrite count_table, (filter_nil_all _ _ Hnone). reflexivity.
Qed.

(** X7.  [findOneByIdOrFail i] over a table: a record it returns is a
    stored record with identity [i] that is not deleted, and the table is
    left as it was; it raises [EntityNotFound] exactly when every record
    with identity [i] is deleted, or there is none. *)
Theorem findOneByIdOrFail_by_rows (i : Z) (t : Table) :
  (forall v t', BaseService.findOneByIdOrFail service i t = (Ok v, t') ->
     t' = t /\ exists e, v = Some e /\ In e (Memory.rows t) /\
                         id e = Some i /\ deletedAt e = None) /\
  ((forall r, In r (Memory.rows t) -> id r = Some i -> deletedAt r <> None) <->
   BaseService.findOneByIdOrFail service i t = (Throw (EntityNotFound entity), t)).
Proof.
  rewrite findOneByIdOrFail_table.
  destruct (List.find (byId i) (Memory.rows t)) as [e |] eqn:E.
  - destruct (find_some _ _ E) as [Hin Hsel]. apply byId_true in Hsel.
    destruct Hsel as [Hid Hdel]. split.
    + intros v t' [= <- <-]. split; [reflexivity |]. exists e. auto.
    + split; [| discriminate].
      intros H. destruct (H e Hin Hid Hdel).
  - split; [discriminate |]. split; [reflexivity |].
    intros _ r Hr Hid Hdel.
    pose proof (find_none _ _ E r Hr) as Hsel.
    rewrite (proj2 (byId_true i r) (conj Hid Hdel)) in Hsel. discriminate.
Qed.

Lemma find_byId_other (i j : Z) (change : Entity -> Entity) (l : list Entity) :
  i <> j -> (forall r, id r = Some i -> byId j (change r) = false) ->
  List.find (byId j) (map (fun r => if whereId (Some i) r then change r else r) l)
  = List.find (byId j) l.
Proof.
  intros Hij Hid. induction l as [| r l IH]; [reflexivity |].
  cbn [map List.find]. destruct (whereId (Some i) r) eqn:Ew.
  - apply whereId_true in Ew.
    assert (H2 : byId j r = false).
    { destruct (byId j r) eqn:E; [| reflexivity].
      apply byId_true in E. destruct E as [E _]. congruence. }
    rewrite (Hid r Ew), H2. exact IH.
  - destruct (byId j r); [reflexivity | exact IH].
Qed.

Lemma byId_other_key (i j : Z) (r : Entity) :
  i <> j -> id r = Some i -> byId j r = false.
Proof.
  intros Hij Hid. destruct (byId j r) eqn:E; [| reflexivity].
  apply byId_true in E. destruct E as [E _]. congruence.
Qed.

(** X8.  A write on one identity does not touch the lookup of another:
    for [j] other than [i], [findOneByIdOrFail j] answers after
    [deleteById i] or [restoreById i] what it answered before, and so it
    does after [updateById i] unless the patch sets the key to [j]. *)
Theorem writes_leave_other_identities (i j : Z)
    (p : QueryDeepPartialEntity Columns) (rel : option FindOptionsRelations)
    (t : Table) :
  i <> j ->
  fst (BaseService.findOneByIdOrFail service j
         (snd (BaseService.deleteById service i t)))
  = fst (BaseService.findOneByIdOrFail service j t) /\
  fst (BaseService.findOneByIdOrFail service j
         (snd (BaseService.restoreById service i t)))
  = fst (BaseService.findOneByIdOrFail service j t) /\
  (setId p <> Some j ->
   fst (BaseService.findOneByIdOrFail service j
          (snd (BaseService.updateById service i p rel t)))
   = fst (BaseService.findOneByIdOrFail service j t)).
Proof.
  intros Hij.
  assert (Hfst : forall t1 : Table,
    List.find (byId j) (Memory.rows t1) = List.find (byId j) (Memory.rows t) ->
    fst (BaseService.findOneByIdOrFail service j t1)
    = fst (BaseService.findOneByIdOrFail service j t)).
  { intros t1 H. rewrite !findOneByIdOrFail_table, H.
    destruct (List.find (byId j) (Memory.rows t)); reflexivity. }
  split; [| split].
  - apply Hfst. unfold BaseService.deleteById.
    cbn [BaseService.repository serviceOf BaseService.new].
    rewrite deleteOrFail_table. cbn [snd Memory.rows Memory.rewritten].
    apply find_byId_other; [exact Hij |].
    intros r Hr. apply (byId_other_key i j); [exact Hij | exact Hr].
  - apply Hfst. unfold BaseService.restoreById.
    cbn [BaseService.repository serviceOf BaseService.new].
    rewrite restoreOrFail_table. cbn [snd Memory.rows Memory.rewritten].
    apply find_byId_other; [exact Hij |].
    intros r Hr. apply (byId_other_key i j); [exact Hij | exact Hr].
  - intros Hkey. apply Hfst. unfold BaseService.updateById, BaseService.update.
    cbn [BaseService.repository serviceOf BaseService.new].
    rewrite updateOrFail_table_after. cbn [Memory.rows Memory.rewritten].
    apply find_byId_other; [exact Hij |].
    intros r Hr.
    destruct (byId j (Memory.patched p (Memory.clock t) r)) eqn:E; [| reflexivity].
    apply byId_true in E. destruct E as [E _]. cbn in E.
    destruct (setId p) as [n |]; [contradiction | congruence].
Qed.






Lemma filter_after_softDelete (f w : FindOptionsWhere Columns) (now : Date)
    (l : list Entity) :
  filter (Memory.selected (optWhere f))
         (map (fun r => if w r then Memory.softDeleted now r else r) l)
  = filter (fun r => f r && Memory.notDeleted r && negb (w r)) l.
Proof.
  induction l as [| r l IH]; [reflexivity |].
  cbn [map filter]. rewrite IH. destruct (w r) eqn:Ew.
  - unfold Memory.selected, optWhere. cbn [where_ withDeleted orb].
    replace (Memory.notDeleted (Memory.softDeleted now r)) with false by reflexivity.
    rewrite !andb_false_r. reflexivity.
  - unfold Memory.selected, optWhere. cbn [where_ withDeleted orb negb].
    rewrite andb_true_r. reflexivity.
Qed.

(** X12.  After [deleteOrFail] on a criteria, whatever it answered,
    [count] on a filter counts the records that satisfied the filter and
    were not deleted before, and that the criteria does not select. *)
Theorem count_after_deleteOrFail (f w : FindOptionsWhere Columns) (t : Table) :
  let t1 := snd (BaseRepository.deleteOrFail repo w t) in
  BaseService.count service f t1
  = (Ok (Z.of_nat (List.length
           (filter (fun r => f r && Memory.notDeleted r && negb (w r))
                   (Memory.rows t)))), t1).
Proof.
  rewrite deleteOrFail_table. cbn [snd]. cbn zeta.
  rewrite count_table. cbn [Memory.rows Memory.rewritten].
  rewrite filter_after_softDelete. reflexivity.
Qed.
End OverTableMore.

(** ** Sorting the operations of the documentation *)

Section OperationsSorter.
Import Swagger.
Local Open Scope string_scope.
Variable localeCompare : string -> string -> Z.

Local Abbreviation sorter := (operationsSorter localeCompare).

Lemma sorter_found (a b : IOperations) (ma pa mb pb : string * string) :
  findEntry "method" a = Some ma -> findEntry "path" a = Some pa ->
  findEntry "method" b = Some mb -> findEntry "path" b = Some pb ->
  sorter a b
  = if lessThan (httpMethodOrder (toLowerCase (snd ma)))
                (httpMethodOrder (toLowerCase (snd mb)))
    then Returned (-1)
    else if lessThan (httpMethodOrder (toLowerCase (snd mb)))
                     (httpMethodOrder (toLowerCase (snd ma)))
         then Returned 1
         else Returned (localeCompare (snd pa) (snd pb)).
Proof.
  intros Hma Hpa Hmb Hpb. unfold operationsSorter.
  rewrite Hma, Hpa, Hmb, Hpb. reflexivity.
Qed.

Lemma rank_own (method : string) (n : Z) :
  rank method = Some n -> httpMethodOrder (toLowerCase method) = Own n.
Proof.
  unfold rank. destruct (httpMethodOrder (toLowerCase method));
    intros [= ->]; reflexivity.
Qed.

(** X18.  Two operations whose methods are among get, post, patch, put and
    delete, in any letter case, are ordered by the rank of the method first:
    the lower rank comes first whatever the paths, in either order of the
    arguments; on equal ranks the paths decide, through [localeCompare]. *)
Theorem sorter_orders_by_rank_then_path (a b : IOperations)
    (ma pa mb pb : string * string) (n k : Z) :
  findEntry "method" a = Some ma -> findEntry "path" a = Some pa ->
  findEntry "method" b = Some mb -> findEntry "path" b = Some pb ->
  rank (snd ma) = Some n -> rank (snd mb) = Some k ->
  (n < k -> sorter a b = Returned (-1) /\ sorter b a = Returned 1) /\
  (n = k -> sorter a b = Returned (localeCompare (snd pa) (snd pb))).
Proof.
  intros Hma Hpa Hmb Hpb Hn Hk.
  rewrite (sorter_found a b ma pa mb pb Hma Hpa Hmb Hpb).
  rewrite (sorter_found b a mb pb ma pa Hmb Hpb Hma Hpa).
  rewrite (rank_own _ _ Hn), (rank_own _ _ Hk). cbn [lessThan].
  split.
  - intros Hlt. rewrite (proj2 (Z.ltb_lt n k) Hlt).
    rewrite (proj2 (Z.ltb_ge k n)) by lia. split; reflexivity.
  - intros ->. rewrite Z.ltb_irrefl. reflexivity.
Qed.

(** X19.  The sorter fails with a [TypeError] exactly when one of the two
    operations has no [method] entry or no [path] entry. *)
Theorem sorter_fails_on_missing_entry (a b : IOperations) :
  sorter a b = TypeError <->
  (findEntry "method" a = None \/ findEntry "path" a = None \/
   findEntry "method" b = None \/ findEntry "path" b = None).
Proof.
  unfold operationsSorter.
  destruct (findEntry "method" a) as [ma |]; [| split; auto].
  destruct (findEntry "path" a) as [pa |]; [| split; auto].
  destruct (findEntry "method" b) as [mb |]; [| split; auto].
  destruct (findEntry "path" b) as [pb |]; [| split; auto].
  split.
  - destruct (lessThan _ _); [discriminate |].
    destruct (greaterThan _ _); discriminate.
  - intros [H | [H | [H | H]]]; discriminate.
Qed.

(** X20.  A method that is not a key of [httpMethodOrder] (options, head)
    is placed by its path alone, against every other operation.  The sorter
    is then no ordering: with [a] of a higher rank than [c] and such a [b],
    [a] against [b] and [b] against [c] go by the paths, while [a] comes
    after [c]. *)
Theorem sorter_unranked_method_by_path (a b c : IOperations)
    (ma pa mb pb mc pc : string * string) (n k : Z) :
  findEntry "method" a = Some ma -> findEntry "path" a = Some pa ->
  findEntry "method" b = Some mb -> findEntry "path" b = Some pb ->
  findEntry "method" c = Some mc -> findEntry "path" c = Some pc ->
  httpMethodOrder (toLowerCase (snd mb)) = Missing ->
  rank (snd ma) = Some n -> rank (snd mc) = Some k -> k < n ->
  sorter a b = Returned (localeCompare (snd pa) (snd pb)) /\
  sorter b c = Returned (localeCompare (snd pb) (snd pc)) /\
  sorter a c = Returned 1.
Proof.
  intros Hma Hpa Hmb Hpb Hmc Hpc Hmiss Hn Hk Hlt.
  rewrite (sorter_found a b ma pa mb pb Hma Hpa Hmb Hpb).
  rewrite (sorter_found b c mb pb mc pc Hmb Hpb Hmc Hpc).
  rewrite (sorter_found a c ma pa mc pc Hma Hpa Hmc Hpc).
  rewrite Hmiss, (rank_own _ _ Hn), (rank_own _ _ Hk). cbn [lessThan].
  rewrite (proj2 (Z.ltb_ge n k)) by lia.
  rewrite (proj2 (Z.ltb_lt k n) Hlt). repeat split.
Qed.
End OperationsSorter.

(** ** Comma-separated settings *)

Section CommaSeparated.
Import Swagger.
Local Open Scope string_scope.

Lemma split_not_nil (s : string) : split s <> [].
Proof.
  destruct s as [| c s]; cbn; [discriminate |].
  destruct (Ascii.eqb c ","); [discriminate |].
  destruct (split s); discriminate.
Qed.

Lemma split_comma_free (s : string) : hasComma s = false -> split s = [s].
Proof.
  induction s as [| c s IH]; [reflexivity |].
  cbn. intros H. apply orb_false_elim in H. destruct H as [Hc Hs].
  rewrite Hc, (IH Hs). reflexivity.
Qed.

Lemma split_app_comma (a b : string) :
  split (a ++ String "," b) = (split a ++ split b)%list.
Proof.
  induction a as [| c a IH]; [reflexivity |].
  cbn. destruct (Ascii.eqb c ",").
  - rewrite IH. reflexivity.
  - rewrite IH. destruct (split a) as [| h t] eqn:E; [| reflexivity].
    destruct (split_not_nil a E).
Qed.

Lemma split_concat (names : list string) :
  names <> [] -> (forall n, In n names -> hasComma n = false) ->
  split (String.concat "," names) = names.
Proof.
  induction names as [| x l IH]; intros Hne Hfree; [contradiction |].
  destruct l as [| y l].
  - cbn. apply split_comma_free. apply Hfree. left. reflexivity.
  - change (String.concat "," (x :: y :: l))
      with (x ++ String "," (String.concat "," (y :: l))).
    rewrite split_app_comma, IH.
    + rewrite split_comma_free; [reflexivity |]. apply Hfree. left. reflexivity.
    + discriminate.
    + intros n Hn. apply Hfree. right. exact Hn.
Qed.

Lemma concat_split (s : string) : String.concat "," (split s) = s.
Proof.
  induction s as [| c s IH]; [reflexivity |].
  cbn [split]. destruct (Ascii.eqb_spec c ",") as [-> | Hc].
  - destruct (split s) as [| h t] eqn:E; [destruct (split_not_nil s E) |].
    change (String.concat "," ("" :: h :: t))
      with (String "," (String.concat "," (h :: t))).
    rewrite IH. reflexivity.
  - destruct (split s) as [| h t] eqn:E; [destruct (split_not_nil s E) |].
    rewrite <- IH. destruct t; reflexivity.
Qed.

Lemma split_pieces_comma_free (s piece : string) :
  In piece (split s) -> hasComma piece = false.
Proof.
  revert piece. induction s as [| c s IH]; intros piece H.
  - destruct H as [<- | []]. reflexivity.
  - cbn [split] in H. destruct (Ascii.eqb c ",") eqn:Ec.
    + destruct H as [<- | H]; [reflexivity | apply IH; exact H].
    + destruct (split s) as [| h t] eqn:E; [destruct (split_not_nil s E) |].
      destruct H as [<- | H].
      * cbn. rewrite Ec. apply IH. left. reflexivity.
      * apply IH. right. exact H.
Qed.

(** X21.  Splitting a setting at its commas and joining with commas are
    inverse: the pieces of a setting have no comma, are at least one, and
    joined by commas give the setting back; and a non-empty list of
    comma-free names, joined by commas, splits into that list. *)
Theorem split_concat_round_trip :
  (forall s, split s <> [] /\
             (forall piece, In piece (split s) -> hasComma piece = false) /\
             String.concat "," (split s) = s) /\
  (forall names, names <> [] ->
     (forall n, In n names -> hasComma n = false) ->
     split (String.concat "," names) = names).
Proof.
  split.
  - intros s. split; [apply split_not_nil |].
    split; [apply split_pieces_comma_free | apply concat_split].
  - apply split_concat.
Qed.

(** X22.  With [SWAGGER_ENVS] a list of comma-free names joined by commas,
    [setupSwagger] puts basic authentication on [/docs] and [/docs-json],
    before the documentation, exactly when [NODE_ENV] is defined and is one
    of the names, character for character; the documentation is set up
    either way, after what the application already had. *)
Theorem setupSwagger_guards_listed_environments (names : list string)
    (env : Environment) (app : list Registration) :
  names <> [] -> (forall n, In n names -> hasComma n = false) ->
  SWAGGER_ENVS env = String.concat "," names ->
  setupSwagger env app
  = (app
     ++ (if includes names (NODE_ENV env)
         then [BasicAuth ["/docs"; "/docs-json"]
                         (SWAGGER_USER env) (SWAGGER_PASSWORD env)]
         else [])
     ++ [Docs "docs" "Utils API" "Api created by Ignacio Gonzalez" "1.0"])%list /\
  (includes names (NODE_ENV env) = true <->
   exists e, NODE_ENV env = Some e /\ In e names).
Proof.
  intros Hne Hfree Henv. split.
  - unfold setupSwagger, swaggerEnvs. rewrite Henv, (split_concat names Hne Hfree).
    destruct (includes names (NODE_ENV env)).
    + rewrite <- app_assoc. reflexivity.
    + reflexivity.
  - unfold includes. destruct (NODE_ENV env) as [e |].
    + rewrite existsb_exists. split.
      * intros [x [Hx Heq]]. apply String.eqb_eq in Heq. subst x.
        exists e. auto.
      * intros [e' [[= <-] Hin]]. exists e. split; [exact Hin |].
        apply String.eqb_refl.
    + split; [discriminate | intros [e [H _]]; discriminate].
Qed.
End CommaSeparated.

(** ** Sample runs *)

Lemma orFail_never_resolves_to_null_witness :
  BaseRepository.findOneOrFail UserRepository (optWhere (whereId (Some 1))) tableA
  = (Ok (Some storedA), tableA) /\
  exists e, Some storedA = Some e /\
    EntityManager.findOne (Memory.manager UserColumns "User")
      (optWhere (whereId (Some 1))) tableA = (Ok (Some e), tableA).
Proof.
  split; [reflexivity |].
  exact (proj1 (orFail_never_resolves_to_null (Memory.manager UserColumns "User"))
           (optWhere (whereId (Some 1))) tableA (Some storedA) tableA eq_refl).
Defined.

Lemma orFail_writes_decide_on_affected_witness :
  EntityManager.softDelete (Memory.manager UserColumns "User")
    (whereId (Some 1)) tableA
  = (Ok {| affected := JsNumber 1 |}, tableGone) /\
  BaseRepository.deleteOrFail UserRepository (whereId (Some 1)) tableA
  = (Ok true, tableGone).
Proof.
  split; [reflexivity |].
  apply (proj2 (proj1 (orFail_writes_decide_on_affected
                         (Memory.manager UserColumns "User"))
                  (whereId (Some 1)) tableA {| affected := JsNumber 1 |}
                  tableGone eq_refl)); discriminate.
Defined.

Lemma manager_failures_pass_through_witness :
  EntityManager.update offline (whereId (Some 1)) renameB tableA
  = (Throw (StorageError "ECONNREFUSED"), tableA) /\
  BaseService.update (BaseService.new (BaseRepository.new offline))
    (whereId (Some 1)) renameB None tableA
  = (Throw (StorageError "ECONNREFUSED"), tableA).
Proof.
  split; [reflexivity |].
  exact (proj2 (proj2 (proj1 (manager_failures_pass_through offline
                                (StorageError "ECONNREFUSED"))
                         (whereId (Some 1)) renameB None tableA tableA eq_refl))).
Defined.

Lemma orFail_exceptions_origin_witness :
  BaseRepository.findOneOrFail UserRepository (optWhere (whereId (Some 1)))
    emptyTable
  = (Throw (EntityNotFound "User"), emptyTable) /\
  (EntityManager.findOne (Memory.manager UserColumns "User")
     (optWhere (whereId (Some 1))) emptyTable
   = (Throw (EntityNotFound "User"), emptyTable) \/
   (EntityNotFound "User" = EntityNotFound "User" /\
    EntityManager.findOne (Memory.manager UserColumns "User")
      (optWhere (whereId (Some 1))) emptyTable = (Ok None, emptyTable))).
Proof.
  split; [reflexivity |].
  exact (proj1 (orFail_exceptions_origin (Memory.manager UserColumns "User")
                  (EntityNotFound "User"))
           (optWhere (whereId (Some 1))) emptyTable emptyTable eq_refl).
Defined.

Lemma findOneByIdOrFail_by_rows_witness :
  BaseService.findOneByIdOrFail UserService 1 tableA = (Ok (Some storedA), tableA) /\
  exists e, Some storedA = Some e /\ In e (Memory.rows tableA) /\
            id e = Some 1 /\ deletedAt e = None.
Proof.
  split; [reflexivity |].
  exact (proj2 (proj1 (findOneByIdOrFail_by_rows "User" 1 tableA)
                  (Some storedA) tableA eq_refl)).
Defined.

Lemma writes_leave_other_identities_witness :
  1 <> 2 /\
  fst (BaseService.findOneByIdOrFail UserService 2
         (snd (BaseService.deleteById UserService 1 tableA)))
  = fst (BaseService.findOneByIdOrFail UserService 2 tableA).
Proof.
  assert (H : 1 <> 2) by discriminate.
  split; [exact H |].
  exact (proj1 (writes_leave_other_identities "User" 1 2 renameB None tableA H)).
Defined.




Lemma snakeCase_keeps_snake_names_witness :
  SnakeCaseStrategy.snakeCase "created_at" = "created_at"%string.
Proof.
  apply snakeCase_keeps_snake_names; reflexivity.
Defined.

Lemma snakeCase_idempotent_witness :
  SnakeCaseStrategy.snakeCase (SnakeCaseStrategy.snakeCase "createdAt")
  = SnakeCaseStrategy.snakeCase "createdAt".
Proof.
  apply snakeCase_idempotent; reflexivity.
Defined.

Lemma snakeCase_camel_witness :
  SnakeCaseStrategy.snakeCase "User" = "user"%string /\
  SnakeCaseStrategy.snakeCase "createdAt" = "created_at"%string.
Proof.
  split.
  - exact (proj1 (snakeCase_camel ""%string "ser"%string "U"%char
                    eq_refl eq_refl)).
  - apply (proj2 (snakeCase_camel "created"%string "t"%string "A"%char
                    eq_refl eq_refl)); try reflexivity. discriminate.
Defined.

Lemma sorter_orders_by_rank_then_path_witness :
  Swagger.operationsSorter byCodeUnits
    (operation "GET" "/user") (operation "post" "/a") = Swagger.Returned (-1) /\
  Swagger.operationsSorter byCodeUnits
    (operation "post" "/a") (operation "GET" "/user") = Swagger.Returned 1.
Proof.
  apply (proj1 (sorter_orders_by_rank_then_path byCodeUnits
                  (operation "GET" "/user") (operation "post" "/a")
                  ("method"%string, "GET"%string) ("path"%string, "/user"%string)
                  ("method"%string, "post"%string) ("path"%string, "/a"%string)
                  1 2 eq_refl eq_refl eq_refl eq_refl eq_refl eq_refl)).
  reflexivity.
Defined.

Lemma sorter_fails_on_missing_entry_witness :
  Swagger.operationsSorter byCodeUnits
    (Swagger.mkOperations [("path"%string, "/user"%string)])
    (operation "get" "/version") = Swagger.TypeError.
Proof.
  apply (proj2 (sorter_fails_on_missing_entry byCodeUnits
                  (Swagger.mkOperations [("path"%string, "/user"%string)])
                  (operation "get" "/version"))).
  left. reflexivity.
Defined.

Lemma sorter_unranked_method_by_path_witness :
  Swagger.operationsSorter byCodeUnits
    (operation "post" "/a") (operation "options" "/b") = Swagger.Returned (-1) /\
  Swagger.operationsSorter byCodeUnits
    (operation "options" "/b") (operation "get" "/c") = Swagger.Returned (-1) /\
  Swagger.operationsSorter byCodeUnits
    (operation "post" "/a") (operation "get" "/c") = Swagger.Returned 1.
Proof.
  exact (sorter_unranked_method_by_path byCodeUnits
           (operation "post" "/a") (operation "options" "/b")
           (operation "get" "/c")
           ("method"%string, "post"%string) ("path"%string, "/a"%string)
           ("method"%string, "options"%string) ("path"%string, "/b"%string)
           ("method"%string, "get"%string) ("path"%string, "/c"%string)
           2 1 eq_refl eq_refl eq_refl eq_refl eq_refl eq_refl eq_refl
           eq_refl eq_refl eq_refl).
Defined.

Lemma split_concat_round_trip_witness :
  Swagger.split "dev,staging" = ["dev"%string; "staging"%string].
Proof.
  apply (proj2 split_concat_round_trip ["dev"%string; "staging"%string]).
  - discriminate.
  - intros n [<- | [<- | []]]; reflexivity.
Defined.

Lemma setupSwagger_guards_listed_environments_witness :
  Swagger.setupSwagger
    (Swagger.mkEnvironment "dev,staging" (Some "staging"%string)
       (Some "admin"%string) (Some "secret"%string)) []
  = [Swagger.BasicAuth ["/docs"%string; "/docs-json"%string]
       (Some "admin"%string) (Some "secret"%string);
     Swagger.Docs "docs" "Utils API" "Api created by Ignacio Gonzalez" "1.0"].
Proof.
  refine (proj1 (setupSwagger_guards_listed_environments
                   ["dev"%string; "staging"%string]
                   (Swagger.mkEnvironment "dev,staging" (Some "staging"%string)
                      (Some "admin"%string) (Some "secret"%string)) [] _ _ _)).
  - discriminate.
  - intros n [<- | [<- | []]]; reflexivity.
  - reflexivity.
Defined.


